(** * Transaction reporting and intent lifecycle of the terminal backend

    A shallow embedding of the request handlers of [server.js]
    ([/create_payment_intent], [/update_payment_intent],
    [/transactions_for_terminal]) and of the earlier revision of the
    reporting handler that selects by [terminal_label], followed by the
    properties of the reporting engine stated in the specification. The
    API-key gate, the remaining handlers, the table of routes and two
    handlers of earlier revisions come after, with the properties the code
    itself shows.

    Conventions of the model:
    - a handler is modelled from the point where the API-key gate has let
      the request through; of the [console.log] lines only the template
      literals have a counterpart, since converting a value to a string can
      throw;
    - a request body is the object the body parsers deliver, a finite map
      from field names to JavaScript values; a field that is absent reads as
      [undefined];
    - numbers are the integer-valued JavaScript numbers; ledger amounts
      are integers in minor currency units and are added as doubles
      ([number_add]: the exact sum rounded to 53 significant bits, ties to
      even, with overflow to an infinity); lemma
      [page_total_is_safe_integer] shows that a page of 500 amounts of at
      most twelve digits adds up exactly;
    - [NaN] as the time value of an invalid date is [None];
    - the payment processor is an oracle answering each call with a resolved
      value or a rejection; every handler records the calls it issues. *)

From stdpp Require Import base numbers strings gmap list.

Local Open Scope string_scope.
Local Open Scope Z_scope.
Local Open Scope list_scope.

(** A promise that has settled; also the outcome of an operation that
    returns or throws. *)
Inductive Settled (A : Type) : Type :=
| Resolved (a : A)
| Rejected (message : string).
Arguments Resolved {A} a.
Arguments Rejected {A} message.

(** ** JavaScript values as they occur in request bodies *)

Inductive value : Type :=
| JsUndefined
| JsNull
| JsBool (b : bool)
| JsNumber (n : Z)
| JsString (s : string)
| JsObject (ref : nat) (prim : Settled string).
(* [ref] is the identity of the object, [prim] what ToPrimitive does for
   it: a plain object or an array of a parsed body converts to a string
   through the [toString] it inherits, and the conversion throws a
   TypeError, with the message given, when the body gives the object (or an
   element of the array) a [toString] of its own, which is not callable. *)

(** ToBoolean: what [!v] and [v || w] test. *)
Definition truthy (v : value) : bool :=
  match v with
  | JsUndefined | JsNull => false
  | JsBool b => b
  | JsNumber n => negb (Z.eqb n 0)
  | JsString s => negb (String.eqb s "")
  | JsObject _ _ => true
  end.

(** [v || w] *)
Definition js_or (v w : value) : value := if truthy v then v else w.

(** [v === w] *)
Definition strict_eq (v w : value) : bool :=
  match v, w with
  | JsUndefined, JsUndefined => true
  | JsNull, JsNull => true
  | JsBool a, JsBool b => Bool.eqb a b
  | JsNumber a, JsNumber b => Z.eqb a b
  | JsString a, JsString b => String.eqb a b
  | JsObject r _, JsObject r' _ => Nat.eqb r r'
  | _, _ => false
  end.

(** [body.k], also what the destructuring [const { k } = req.body] binds. *)
Definition field (body : gmap string value) (k : string) : value :=
  default JsUndefined (body !! k).

(** ** Numbers of the aggregation *)

(** The value of a JavaScript number that is an integer, an infinity or
    NaN. *)
Inductive number : Type :=
| Finite (n : Z)
| Infinite (negative : bool)
| NaN.

(** The integer with at most 53 significant bits nearest to [x], ties to
    the even significand. *)
Definition round_double (x : Z) : Z :=
  let a := Z.abs x in
  let e := Z.log2 a - 52 in
  if Z.leb e 0 then x
  else
    let q := a / 2 ^ e in
    let r := a mod 2 ^ e in
    let half := 2 ^ (e - 1) in
    let q' := if Z.ltb half r || (Z.eqb r half && Z.odd q) then q + 1 else q in
    Z.sgn x * (q' * 2 ^ e).

(** The double nearest to the integer [x]: what a number written [x]
    is once parsed, and what an exact result [x] is once rounded. *)
Definition to_double (x : Z) : number :=
  let y := round_double x in
  if Z.ltb (Z.abs y) (2 ^ 1024) then Finite y else Infinite (Z.ltb x 0).

(** [m + n] on numbers *)
Definition number_add (m n : number) : number :=
  match m, n with
  | Finite a, Finite b => to_double (a + b)
  | NaN, _ | _, NaN => NaN
  | Infinite s, Infinite s' => if Bool.eqb s s' then Infinite s else NaN
  | Infinite s, Finite _ | Finite _, Infinite s => Infinite s
  end.

(** ** Ledger records *)

Record PaymentIntent : Type := {
  id : string;
  amount : Z;
  currency : string;
  status : string;
  created : Z;
  client_secret : string;
  metadata : gmap string string
}.

(** [pi.metadata.k]: the stored string, or [undefined]. *)
Definition metadata_field (pi : PaymentIntent) (k : string) : value :=
  from_option JsString JsUndefined (metadata pi !! k).

Record Page : Type := {
  data : list PaymentIntent;
  has_more : bool
}.

(** ** Calls to the processor *)

Record CreateParams : Type := {
  cp_amount : value;
  cp_currency : value;
  cp_capture_method : string;
  cp_description : value;
  cp_receipt_email : value;
  cp_payment_method_types : list string;
  cp_metadata : gmap string value
}.

Record ListParams : Type := {
  created_gte : option Z;
  created_lte : option Z;
  limit : Z
}.

Inductive StripeCall : Type :=
| PaymentIntentsCreate (params : CreateParams)
| PaymentIntentsUpdate (payment_intent_id : value) (receipt_email : value)
| PaymentIntentsList (params : ListParams).

(** The processor client [stripe.paymentIntents]. *)
Record Stripe : Type := {
  paymentIntents_create : CreateParams → Settled PaymentIntent;
  paymentIntents_update : value → value → Settled PaymentIntent;
  paymentIntents_list : ListParams → Settled Page
}.

(** ** HTTP responses *)

Inductive json : Type :=
| JValue (v : value)
| JIntent (pi : PaymentIntent)
| JIntents (l : list PaymentIntent).

Record Response : Type := {
  code : nat;
  payload : list (string * json)
}.

(** [res.json(o)] and [res.status(c).json(o)] *)
Definition res_json (o : list (string * json)) : Response :=
  {| code := 200; payload := o |}.
Definition res_status_json (c : nat) (o : list (string * json)) : Response :=
  {| code := c; payload := o |}.

(** A number as [res.json] writes it: JSON has neither infinities nor NaN,
    [null] is written in their place. *)
Definition number_json (n : number) : json :=
  match n with
  | Finite z => JValue (JsNumber z)
  | Infinite _ | NaN => JValue JsNull
  end.

(** Reading a key of a response object. *)
Fixpoint get (o : list (string * json)) (k : string) : option json :=
  match o with
  | [] => None
  | (k', v) :: o' => if String.eqb k' k then Some v else get o' k
  end.

(** ** Handlers as computations that log their processor calls *)

Definition Async (A : Type) : Type :=
  list StripeCall → Settled A * list StripeCall.

#[global] Instance async_ret : MRet Async := λ A a log, (Resolved a, log).

#[global] Instance async_bind : MBind Async := λ A B f m log,
  match m log with
  | (Resolved a, log') => f a log'
  | (Rejected e, log') => (Rejected e, log')
  end.

(** [await stripe....(args)]: the call is issued, then its settlement is
    the result (a rejection is thrown). *)
Definition await {A} (c : StripeCall) (r : Settled A) : Async A :=
  λ log, (r, log ++ [c]).

(** An expression that returns or throws, without any call. *)
Definition evaluate {A} (r : Settled A) : Async A := λ log, (r, log).

(** [try { m } catch (err) { h(err.message) }], run from an empty log. *)
Definition try_catch (m : Async Response) (h : string → Response)
  : Response * list StripeCall :=
  match m [] with
  | (Resolved r, log) => (r, log)
  | (Rejected e, log) => (h e, log)
  end.

(** Every handler ends in the same catch clause. *)
Definition internal_error (message : string) : Response :=
  res_status_json 500 [("error", JValue (JsString message))].

(** ** Dates *)

(** Largest magnitude of a time value (TimeClip). *)
Definition max_time : Z := 8640000000000000.

Section Handlers.

(** [Date.parse] on strings: milliseconds since the epoch, [None] for an
    invalid date. *)
Variable Date_parse : string → option Z.
Variable stripe : Stripe.

(** [new Date(v)]: the time value of the date constructed, or the
    TypeError thrown while [v] is converted to a primitive. *)
Definition new_Date (v : value) : Settled (option Z) :=
  match v with
  | JsString s => Resolved (Date_parse s)
  | JsObject _ (Resolved prim) => Resolved (Date_parse prim)
  | JsObject _ (Rejected message) => Rejected message
  | JsNumber n => Resolved (if Z.leb (Z.abs n) max_time then Some n else None)
  | JsBool b => Resolved (Some (if b then 1 else 0))
  | JsNull => Resolved (Some 0)
  | JsUndefined => Resolved None
  end.

(** [new Date(v).getTime()], for a date that could be constructed. *)
Definition getTime (v : value) : option Z :=
  match new_Date v with
  | Resolved time => time
  | Rejected _ => None
  end.

(** [Math.floor(new Date(v).getTime() / 1000)] *)
Definition to_seconds (v : value) : option Z :=
  (λ ms, ms / 1000) <$> getTime v.

(** The same expression as a step of a handler: it throws when
    [new Date(v)] does. *)
Definition seconds_of (v : value) : Settled (option Z) :=
  match new_Date v with
  | Resolved time => Resolved ((λ ms, ms / 1000) <$> time)
  | Rejected message => Rejected message
  end.

(** ** POST /create_payment_intent *)

Definition create_params (body : gmap string value) : CreateParams :=
  {| cp_amount := field body "amount";
     cp_currency := field body "currency";
     cp_capture_method := "automatic";
     cp_description :=
       js_or (field body "description") (JsString "Terminal Transaction");
     cp_receipt_email := js_or (field body "receipt_email") JsUndefined;
     cp_payment_method_types := ["card_present"];
     cp_metadata :=
       {[ "terminal_label" :=
            js_or (field body "terminal_label") (JsString "");
          "staff_name" :=
            js_or (field body "staff_name") (JsString "Unknown") ]} |}.

Definition create_payment_intent (body : gmap string value)
  : Response * list StripeCall :=
  try_catch
    (let params := create_params body in
     paymentIntent ← await (PaymentIntentsCreate params)
                           (paymentIntents_create stripe params);
     mret (res_json [("intent", JValue (JsString (id paymentIntent)));
                    ("secret", JValue (JsString (client_secret paymentIntent)))]))
    internal_error.

(** ** POST /update_payment_intent *)

Definition update_payment_intent (body : gmap string value)
  : Response * list StripeCall :=
  try_catch
    (let payment_intent_id := field body "payment_intent_id" in
     let receipt_email := field body "receipt_email" in
     if negb (truthy payment_intent_id) || negb (truthy receipt_email) then
       mret (res_status_json 400
              [("error", JValue (JsString "Missing payment_intent_id or receipt_email"))])
     else
       paymentIntent ← await (PaymentIntentsUpdate payment_intent_id receipt_email)
                             (paymentIntents_update stripe payment_intent_id receipt_email);
       mret (res_json [("success", JValue (JsBool true));
                      ("paymentIntent", JIntent paymentIntent)]))
    internal_error.

(** ** POST /transactions_for_terminal *)

(** The filter callback: [pi.status === 'succeeded' &&
    pi.metadata.staff_name === staff_name]. *)
Definition staff_filter (staff_name : value) (pi : PaymentIntent) : bool :=
  String.eqb (status pi) "succeeded"
  && strict_eq (metadata_field pi "staff_name") staff_name.

(** [filtered.reduce((sum, pi) => sum + pi.amount, 0)] *)
Definition reduce_total (filtered : list PaymentIntent) : number :=
  foldl (λ sum pi, number_add sum (to_double (amount pi))) (Finite 0) filtered.

(** [filtered[0]?.currency || "eur"] *)
Definition first_currency (filtered : list PaymentIntent) : value :=
  js_or (from_option (λ pi, JsString (currency pi)) JsUndefined (head filtered))
        (JsString "eur").

(** The object handed to [res.json] once the page is filtered, as it is
    written. *)
Definition summary (filtered : list PaymentIntent) : list (string * json) :=
  [("total", number_json (reduce_total filtered));
   ("currency", JValue (first_currency filtered));
   ("count", JValue (JsNumber (Z.of_nat (length filtered))));
   ("transactions", JIntents filtered)].

(** The parameters of the list call, for bounds that could be
    converted. *)
Definition list_params (start end_ : value) : ListParams :=
  {| created_gte := to_seconds start;
     created_lte := to_seconds end_;
     limit := 500 |}.

Definition transactions_for_terminal (body : gmap string value)
  : Response * list StripeCall :=
  try_catch
    (let start := field body "start" in
     let end_ := field body "end" in
     let staff_name := field body "staff_name" in
     if negb (truthy start) || negb (truthy end_) || negb (truthy staff_name) then
       mret (res_status_json 400
              [("error", JValue (JsString "Missing start, end, or staff_name"))])
     else
       gte ← evaluate (seconds_of start);
       lte ← evaluate (seconds_of end_);
       let params := {| created_gte := gte; created_lte := lte; limit := 500 |} in
       paymentIntents ← await (PaymentIntentsList params)
                              (paymentIntents_list stripe params);
       let filtered := List.filter (staff_filter staff_name) (data paymentIntents) in
       mret (res_json (summary filtered)))
    internal_error.

End Handlers.

(** ** The earlier revision of the reporting handler

    Before the selector became [staff_name], the handler read
    [terminal_id] and [terminal_label] and filtered on the label, with a
    fall-back branch that keeps every succeeded record. *)

Module Rev_terminal_label.
Section Handlers.

Variable Date_parse : string → option Z.
Variable stripe : Stripe.

(** The filter callback:
    [if (terminal_label) return pi.status === 'succeeded' &&
       pi.metadata.terminal_label === terminal_label;
     return pi.status === 'succeeded';] *)
Definition label_filter (terminal_label : value) (pi : PaymentIntent) : bool :=
  if truthy terminal_label then
    String.eqb (status pi) "succeeded"
    && strict_eq (metadata_field pi "terminal_label") terminal_label
  else
    String.eqb (status pi) "succeeded".

(** A template literal [`... ${v}`] in a [console.log] line: [v] is
    converted to a string, which can throw; the text is of no account. *)
Definition template (v : value) : Settled unit :=
  match v with
  | JsObject _ (Rejected message) => Rejected message
  | _ => Resolved ()
  end.

Definition transactions_for_terminal (body : gmap string value)
  : Response * list StripeCall :=
  try_catch
    (let start := field body "start" in
     let end_ := field body "end" in
     let terminal_id := field body "terminal_id" in
     let terminal_label := field body "terminal_label" in
     logged ← evaluate (template start);
     logged ← evaluate (template end_);
     if negb (truthy start) || negb (truthy end_)
        || (negb (truthy terminal_id) && negb (truthy terminal_label)) then
       mret (res_status_json 400
              [("error", JValue (JsString "Missing start, end, or terminal_id or terminal_label"))])
     else
       gte ← evaluate (seconds_of Date_parse start);
       lte ← evaluate (seconds_of Date_parse end_);
       let params := {| created_gte := gte; created_lte := lte; limit := 500 |} in
       paymentIntents ← await (PaymentIntentsList params)
                              (paymentIntents_list stripe params);
       let filtered := List.filter (label_filter terminal_label) (data paymentIntents) in
       logged ← evaluate (template terminal_label);
       mret (res_json (summary filtered)))
    internal_error.

End Handlers.
End Rev_terminal_label.

(** ** The attribution policy in the words of the specification

    Strategies in priority order: terminal label, operator name, reader
    identifier (never populated by the ledger, so it never matches), and
    "no selector: every succeeded record". A selector carries a key when the
    request holds a non-empty value for it; a record has a key when its
    metadata holds it. *)

Definition spec_strategy (terminal_label operator_name reader_id : value)
    (pi : PaymentIntent) : bool :=
  if truthy terminal_label && bool_decide (is_Some (metadata pi !! "terminal_label")) then
    strict_eq (metadata_field pi "terminal_label") terminal_label
  else if truthy operator_name && bool_decide (is_Some (metadata pi !! "staff_name")) then
    strict_eq (metadata_field pi "staff_name") operator_name
  else if truthy reader_id then
    false
  else
    negb (truthy terminal_label) && negb (truthy operator_name).

Definition spec_matches (terminal_label operator_name reader_id : value)
    (pi : PaymentIntent) : bool :=
  String.eqb (status pi) "succeeded"
  && spec_strategy terminal_label operator_name reader_id pi.

(** ** Vocabulary of the properties *)

(** The guard of the reporting handler lets the request through:
    the negation of [!start || !end || !staff_name]. *)
Definition required (body : gmap string value) : bool :=
  truthy (field body "start") && truthy (field body "end")
  && truthy (field body "staff_name").

(** Converting the value to a primitive does not throw. *)
Definition converts (v : value) : bool :=
  match v with
  | JsObject _ (Rejected _) => false
  | _ => true
  end.

(** The request gets as far as the list call: the guard lets it through
    and [new Date] throws on neither bound. *)
Definition accepted (body : gmap string value) : bool :=
  required body && converts (field body "start")
  && converts (field body "end").

(** A field that is missing ([undefined], [null]) or the empty string. *)
Definition missing_or_empty (v : value) : bool :=
  match v with
  | JsUndefined | JsNull => true
  | JsString s => String.eqb s ""
  | _ => false
  end.

(** The processor keeps the metadata strings of a create call verbatim on
    the record it creates. *)
Definition kept_by_ledger (p : CreateParams) (pi : PaymentIntent) : Prop :=
  ∀ k s, cp_metadata p !! k = Some (JsString s) → metadata pi !! k = Some s.

(** The same record in another currency. *)
Definition with_currency (c : string) (pi : PaymentIntent) : PaymentIntent :=
  {| id := id pi; amount := amount pi; currency := c; status := status pi;
     created := created pi; client_secret := client_secret pi;
     metadata := metadata pi |}.

(** The sum of the amounts as integers. *)
Definition exact_sum (l : list PaymentIntent) : Z :=
  foldr Z.add 0 (amount <$> l).

(** Amounts that doubles add without rounding: none is negative and their
    sum is at most 2^53. *)
Definition safe_amounts (l : list PaymentIntent) : Prop :=
  Forall (λ pi, 0 ≤ amount pi) l ∧ exact_sum l ≤ 2 ^ 53.

(** The page-size ceiling of the list call. *)
Definition ceiling : nat := 500.

(** ** Sample data *)

Definition intent (i : string) (a : Z) (cur st : string)
    (md : list (string * string)) : PaymentIntent :=
  {| id := i; amount := a; currency := cur; status := st;
     created := 1704100000; client_secret := i +:+ "_secret";
     metadata := list_to_map md |}.

(** A processor whose list call resolves with the given page. *)
Definition ledger (l : list PaymentIntent) (more : bool) : Stripe :=
  {| paymentIntents_create := λ _, Rejected "create is not available";
     paymentIntents_update := λ _ _, Rejected "update is not available";
     paymentIntents_list := λ _, Resolved {| data := l; has_more := more |} |}.

(** A date parser that knows two instants. *)
Definition parse_sample (s : string) : option Z :=
  if String.eqb s "2024-01-01T00:00:00.000Z" then Some 1704067200000
  else if String.eqb s "2024-01-02T00:00:00.000Z" then Some 1704153600000
  else None.

Definition window : gmap string value :=
  {[ "start" := JsString "2024-01-01T00:00:00.000Z";
     "end" := JsString "2024-01-02T00:00:00.000Z" ]}.

Definition alice_1000 : PaymentIntent :=
  intent "pi_1" 1000 "eur" "succeeded"
         [("terminal_label", "Register-2"); ("staff_name", "Alice")].
Definition alice_500_usd : PaymentIntent :=
  intent "pi_2" 500 "usd" "succeeded"
         [("terminal_label", "Register-1"); ("staff_name", "Alice")].
Definition alice_pending : PaymentIntent :=
  intent "pi_3" 700 "eur" "requires_capture"
         [("terminal_label", "Register-1"); ("staff_name", "Alice")].
Definition bob_300 : PaymentIntent :=
  intent "pi_4" 300 "eur" "succeeded"
         [("terminal_label", "Register-1"); ("staff_name", "Bob")].

Definition alice_request : gmap string value :=
  <["staff_name" := JsString "Alice"]> window.

(** Alice's request, also naming the terminal. *)
Definition alice_at_register_1 : gmap string value :=
  <["terminal_label" := JsString "Register-1"]> alice_request.

(** Alice's request with the two instants exchanged. *)
Definition inverted_request : gmap string value :=
  {[ "start" := JsString "2024-01-02T00:00:00.000Z";
     "end" := JsString "2024-01-01T00:00:00.000Z";
     "staff_name" := JsString "Alice" ]}.

(** A page filled to the ceiling. *)
Definition full_page : list PaymentIntent := replicate ceiling alice_1000.

(** A processor that accepts every create and update. *)
Definition accepting : Stripe :=
  {| paymentIntents_create := λ _, Resolved alice_pending;
     paymentIntents_update := λ _ _, Resolved alice_1000;
     paymentIntents_list := λ _, Resolved {| data := []; has_more := false |} |}.

(** What the ledger holds once an unattributed payment has succeeded. *)
Definition unattributed_200 : PaymentIntent :=
  intent "pi_5" 200 "eur" "succeeded"
         [("terminal_label", ""); ("staff_name", "Unknown")].

(** ** The rest of the server

    The API-key gate, the two handlers that remain ([/connection_token],
    [/capture_payment_intent]) and the table of routes. Their processor
    calls extend those of the payment-intent handlers above. *)

(** [process.env.API_KEY || 'supersecretkey'] *)
Definition API_KEY (env : gmap string string) : value :=
  js_or (from_option JsString JsUndefined (env !! "API_KEY"))
        (JsString "supersecretkey").

(** [req.headers[k]] *)
Definition header (headers : gmap string string) (k : string) : value :=
  from_option JsString JsUndefined (headers !! k).

(** [authenticate(req, res, next)]; [next] is the handler of the route. *)
Definition authenticate {C : Type} (env headers : gmap string string)
    (next : Response * list C) : Response * list C :=
  let key := header headers "x-api-key" in
  if negb (strict_eq key (API_KEY env)) then
    (res_status_json 401 [("error", JValue (JsString "Unauthorized"))], [])
  else next.

Inductive ClientCall : Type :=
| OnPaymentIntents (c : StripeCall)
| PaymentIntentsCapture (payment_intent_id : value)
                        (params : list (string * value))
| ConnectionTokensCreate.

(** The whole client: [stripe.paymentIntents] with [capture], and
    [stripe.terminal.connectionTokens]. *)
Record Client : Type := {
  paymentIntents : Stripe;
  paymentIntents_capture :
    value → list (string * value) → Settled PaymentIntent;
  terminal_connectionTokens_create : Settled (list (string * json))
}.

(** Computations over any kind of call. *)
Definition Task (C A : Type) : Type := list C → Settled A * list C.

#[global] Instance task_ret {C} : MRet (Task C) :=
  λ A a log, (Resolved a, log).

#[global] Instance task_bind {C} : MBind (Task C) := λ A B f m log,
  match m log with
  | (Resolved a, log') => f a log'
  | (Rejected e, log') => (Rejected e, log')
  end.

(** [await] of a call, and [try { m } catch (err) { h(err.message) }]. *)
Definition call {C A} (c : C) (r : Settled A) : Task C A :=
  λ log, (r, log ++ [c]).

Definition guarded {C} (m : Task C Response) (h : string → Response)
  : Response * list C :=
  match m [] with
  | (Resolved r, log) => (r, log)
  | (Rejected e, log) => (h e, log)
  end.

(** POST /connection_token *)
Definition connection_token (client : Client) : Response * list ClientCall :=
  guarded
    (token ← call ConnectionTokensCreate
                  (terminal_connectionTokens_create client);
     mret (res_json token))
    internal_error.

(** POST /capture_payment_intent *)
Definition capture_payment_intent (client : Client) (body : gmap string value)
  : Response * list ClientCall :=
  guarded
    (let payment_intent_id := field body "payment_intent_id" in
     let amount_to_capture := field body "amount_to_capture" in
     let params := if truthy amount_to_capture
                   then [("amount_to_capture", amount_to_capture)] else [] in
     paymentIntent ← call (PaymentIntentsCapture payment_intent_id params)
                          (paymentIntents_capture client payment_intent_id params);
     mret (res_json [("intent", JValue (JsString (id paymentIntent)));
                     ("secret", JValue (JsString (client_secret paymentIntent)))]))
    internal_error.

(** The routes the application registers. *)
Inductive Route : Type :=
| PostConnectionToken
| PostCreatePaymentIntent
| PostCapturePaymentIntent
| PostUpdatePaymentIntent
| PostTransactionsForTerminal
| GetRoot.

Inductive Reply : Type :=
| JsonReply (r : Response)
| TextReply (text : string).

(** A payment-intent handler seen as a handler of the whole client. *)
Definition on_paymentIntents (r : Response * list StripeCall)
  : Response * list ClientCall :=
  (fst r, OnPaymentIntents <$> snd r).

(** A JSON handler behind the gate. *)
Definition gated (env headers : gmap string string)
    (next : Response * list ClientCall) : Reply * list ClientCall :=
  let r := authenticate env headers next in (JsonReply (fst r), snd r).

(** The handler registered behind [authenticate] on each POST route; the
    health check has none. *)
Definition route_handler (Date_parse : string → option Z) (client : Client)
    (route : Route) (body : gmap string value)
  : option (Response * list ClientCall) :=
  match route with
  | PostConnectionToken => Some (connection_token client)
  | PostCreatePaymentIntent =>
      Some (on_paymentIntents
              (create_payment_intent (paymentIntents client) body))
  | PostCapturePaymentIntent => Some (capture_payment_intent client body)
  | PostUpdatePaymentIntent =>
      Some (on_paymentIntents
              (update_payment_intent (paymentIntents client) body))
  | PostTransactionsForTerminal =>
      Some (on_paymentIntents
              (transactions_for_terminal Date_parse (paymentIntents client) body))
  | GetRoot => None
  end.

(** [app.post(path, authenticate, handler)] for the POST routes and
    [app.get('/', (req, res) => res.send(...))] for the health check. *)
Definition serve (env : gmap string string) (Date_parse : string → option Z)
    (client : Client) (route : Route) (headers : gmap string string)
    (body : gmap string value) : Reply * list ClientCall :=
  match route_handler Date_parse client route body with
  | Some next => gated env headers next
  | None => (TextReply "Stripe Terminal backend running.", [])
  end.

(** ** Other revisions *)

(** The create handler of the revision that reports by [terminal_label]:
    it reads the operator from [staffName]. *)
Module Rev_terminal_label_create.

Definition create_params (body : gmap string value) : CreateParams :=
  {| cp_amount := field body "amount";
     cp_currency := field body "currency";
     cp_capture_method := "automatic";
     cp_description :=
       js_or (field body "description") (JsString "Terminal Transaction");
     cp_receipt_email := js_or (field body "receipt_email") JsUndefined;
     cp_payment_method_types := ["card_present"];
     cp_metadata :=
       {[ "terminal_label" :=
            js_or (field body "terminal_label") (JsString "");
          "staff_name" :=
            js_or (field body "staffName") (JsString "Unknown") ]} |}.

Definition create_payment_intent (stripe : Stripe) (body : gmap string value)
  : Response * list StripeCall :=
  try_catch
    (let params := create_params body in
     paymentIntent ← await (PaymentIntentsCreate params)
                           (paymentIntents_create stripe params);
     mret (res_json [("intent", JValue (JsString (id paymentIntent)));
                     ("secret", JValue (JsString (client_secret paymentIntent)))]))
    internal_error.

End Rev_terminal_label_create.

(** GET /transactions_today of the revision that reports by reader.
    [midnight] is the time value of [new Date(y, m, d)] for the local date
    of the request. *)
Module Rev_transactions_today.

Record SinceParams : Type := {
  since_limit : Z;
  since_gte : Z
}.

Inductive Call : Type :=
| PaymentIntentsListSince (params : SinceParams).

Definition transactions_today (midnight : Z)
    (paymentIntents_list_since : SinceParams → Settled Page)
  : Response * list Call :=
  guarded
    (let params := {| since_limit := 100; since_gte := midnight / 1000 |} in
     paymentIntents ← call (PaymentIntentsListSince params)
                           (paymentIntents_list_since params);
     let total :=
       reduce_total
         (List.filter (λ pi, String.eqb (status pi) "succeeded")
                      (data paymentIntents)) in
     mret (res_json
             [("total", number_json total);
              ("currency",
               JValue (js_or (from_option (λ pi, JsString (currency pi))
                                          JsUndefined
                                          (head (data paymentIntents)))
                             (JsString "eur")))]))
    internal_error.

End Rev_transactions_today.

(** ** More sample data *)

(** A processor that rejects every call with the same message. *)
Definition failing (message : string) : Stripe :=
  {| paymentIntents_create := λ _, Rejected message;
     paymentIntents_update := λ _ _, Rejected message;
     paymentIntents_list := λ _, Rejected message |}.

(** A client around a payment-intent processor; captures resolve with the
    given record and the connection token is fixed. *)
Definition client_of (stripe : Stripe) (captured : PaymentIntent) : Client :=
  {| paymentIntents := stripe;
     paymentIntents_capture := λ _ _, Resolved captured;
     terminal_connectionTokens_create :=
       Resolved [("object", JValue (JsString "terminal.connection_token"));
                 ("secret", JValue (JsString "pst_test"))] |}.

Definition eve_failed_usd : PaymentIntent :=
  intent "pi_6" 100 "usd" "requires_payment_method" [].

(** Amounts at the edge of the integers that doubles hold one by one. *)
Definition alice_2_53 : PaymentIntent :=
  intent "pi_9" 9007199254740992 "eur" "succeeded" [("staff_name", "Alice")].
Definition alice_1 : PaymentIntent :=
  intent "pi_10" 1 "eur" "succeeded" [("staff_name", "Alice")].

(** An object of a parsed body that cannot be converted to a primitive,
    such as [{"toString": 1}]. *)
Definition unconvertible : value :=
  JsObject 0 (Rejected "Cannot convert object to primitive value").

(** ** How the reporting handler runs *)

Section Reporting.

Variable Date_parse : string → option Z.
Variable stripe : Stripe.
Variable body : gmap string value.

Local Abbreviation start := (field body "start").
Local Abbreviation end_ := (field body "end").
Local Abbreviation staff_name := (field body "staff_name").
Local Abbreviation params := (list_params Date_parse start end_).
Local Abbreviation accepted := (accepted body).

Lemma seconds_of_converts v :
  converts v = true →
  seconds_of Date_parse v = Resolved (to_seconds Date_parse v).
Proof.
  unfold seconds_of, to_seconds, getTime.
  destruct v as [| | | | |ref [prim|message]]; simpl; done.
Qed.

Lemma seconds_of_throws v :
  converts v = false →
  ∃ message, seconds_of Date_parse v = Rejected message.
Proof.
  destruct v as [| | | | |ref [prim|message]]; simpl; try done.
  intros _. by exists message.
Qed.

Lemma accepted_inv :
  accepted = true →
  truthy start = true ∧ truthy end_ = true ∧ truthy staff_name = true
  ∧ converts start = true ∧ converts end_ = true.
Proof.
  unfold accepted, required.
  intros [[[[? ?]%andb_prop ?]%andb_prop ?]%andb_prop ?]%andb_prop. done.
Qed.

Lemma reporting_refused :
  required body = false →
  transactions_for_terminal Date_parse stripe body =
    (res_status_json 400
       [("error", JValue (JsString "Missing start, end, or staff_name"))], []).
Proof.
  unfold required, transactions_for_terminal, try_catch. intros Hguard.
  destruct (truthy start), (truthy end_), (truthy staff_name);
    simpl in Hguard; try discriminate; reflexivity.
Qed.

Lemma reporting_thrown message :
  required body = true →
  seconds_of Date_parse start = Rejected message
  ∨ (converts start = true ∧ seconds_of Date_parse end_ = Rejected message) →
  transactions_for_terminal Date_parse stripe body =
    (internal_error message, []).
Proof.
  unfold required, transactions_for_terminal, try_catch. intros Hguard Hthrow.
  destruct (truthy start), (truthy end_), (truthy staff_name);
    simpl in Hguard; try discriminate.
  cbn. unfold mbind, async_bind, evaluate.
  destruct Hthrow as [-> | [Hstart ->]]; [done|].
  by rewrite (seconds_of_converts _ Hstart).
Qed.

Lemma reporting_runs :
  accepted = true →
  transactions_for_terminal Date_parse stripe body =
    (match paymentIntents_list stripe params with
     | Resolved page =>
         res_json (summary (List.filter (staff_filter staff_name) (data page)))
     | Rejected message => internal_error message
     end, [PaymentIntentsList params]).
Proof.
  intros (Hstart & Hend & Hstaff & Hcs & Hce)%accepted_inv.
  unfold transactions_for_terminal, try_catch.
  rewrite Hstart, Hend, Hstaff. cbn.
  unfold mbind, async_bind, evaluate, await.
  rewrite (seconds_of_converts _ Hcs), (seconds_of_converts _ Hce).
  change {| created_gte := to_seconds Date_parse start;
            created_lte := to_seconds Date_parse end_; limit := 500 |}
    with params.
  by destruct (paymentIntents_list stripe params).
Qed.

Lemma reporting_resolved page :
  accepted = true →
  paymentIntents_list stripe params = Resolved page →
  transactions_for_terminal Date_parse stripe body =
    (res_json (summary (List.filter (staff_filter staff_name) (data page))),
     [PaymentIntentsList params]).
Proof. intros Hguard Hlist. by rewrite (reporting_runs Hguard), Hlist. Qed.

Lemma reporting_upstream_error message :
  accepted = true →
  paymentIntents_list stripe params = Rejected message →
  transactions_for_terminal Date_parse stripe body =
    (internal_error message, [PaymentIntentsList params]).
Proof. intros Hguard Hlist. by rewrite (reporting_runs Hguard), Hlist. Qed.

(** A request that does not get as far as the list call is answered 400
    or 500, whatever the ledger. *)
Lemma reporting_stopped :
  accepted = false →
  ∃ r, transactions_for_terminal Date_parse stripe body = (r, [])
       ∧ get (payload r) "transactions" = None
       ∧ r = (if required body
              then match seconds_of Date_parse start with
                   | Rejected message => internal_error message
                   | Resolved _ =>
                       match seconds_of Date_parse end_ with
                       | Rejected message => internal_error message
                       | Resolved _ => internal_error ""
                       end
                   end
              else res_status_json 400
                     [("error",
                       JValue (JsString "Missing start, end, or staff_name"))]).
Proof.
  unfold accepted. intros Hstop.
  destruct (required body) eqn:Hguard.
  - simpl in Hstop.
    destruct (converts start) eqn:Hcs; simpl in Hstop.
    + destruct (seconds_of_throws _ Hstop) as [message Hend].
      rewrite (seconds_of_converts _ Hcs), Hend.
      eexists. split; [apply (reporting_thrown message); auto|]. done.
    + destruct (seconds_of_throws _ Hcs) as [message Hstart].
      rewrite Hstart.
      eexists. split; [apply (reporting_thrown message); auto|]. done.
  - eexists. split; [by apply reporting_refused|]. done.
Qed.

(** Whatever the request and the ledger, at most one call is issued. *)
Lemma reporting_calls :
  snd (transactions_for_terminal Date_parse stripe body) =
    if accepted then [PaymentIntentsList params] else [].
Proof.
  destruct accepted eqn:Hguard.
  - by rewrite (reporting_runs Hguard).
  - by destruct (reporting_stopped Hguard) as (r & -> & _).
Qed.

End Reporting.

(** ** Folding amounts *)

Lemma round_double_exact x : Z.abs x ≤ 2 ^ 53 → round_double x = x.
Proof.
  intros Hx. unfold round_double.
  destruct (Z.leb_spec (Z.log2 (Z.abs x) - 52) 0) as [|Hlog]; [done|].
  assert (2 ^ 53 ≤ Z.abs x) as Hge.
  { assert (0 < Z.abs x) as Hpos.
    { destruct (Z.eq_dec (Z.abs x) 0) as [Hz|]; [|lia].
      rewrite Hz in Hlog. simpl in Hlog. lia. }
    pose proof (Z.log2_spec _ Hpos) as [Hlow _].
    etrans; [|exact Hlow]. apply Z.pow_le_mono_r; lia. }
  assert (Z.abs x = 2 ^ 53) as Habs by lia.
  destruct (Z.abs_spec x) as [[_ Heq]|[_ Heq]]; rewrite Heq in Habs.
  - subst x. by vm_compute.
  - assert (x = - 2 ^ 53) as -> by lia. by vm_compute.
Qed.

Lemma to_double_exact x : Z.abs x ≤ 2 ^ 53 → to_double x = Finite x.
Proof.
  intros Hx. unfold to_double. rewrite (round_double_exact _ Hx).
  assert (2 ^ 53 < 2 ^ 1024) by (apply Z.pow_lt_mono_r; lia).
  destruct (Z.ltb_spec (Z.abs x) (2 ^ 1024)); [done|lia].
Qed.

Lemma reduce_total_nil : reduce_total [] = Finite 0.
Proof. reflexivity. Qed.

Lemma exact_sum_cons pi l : exact_sum (pi :: l) = amount pi + exact_sum l.
Proof. reflexivity. Qed.

Lemma exact_sum_app l1 l2 : exact_sum (l1 ++ l2) = exact_sum l1 + exact_sum l2.
Proof.
  induction l1 as [|pi l1 IH]; [done|].
  simpl app. rewrite !exact_sum_cons, IH. lia.
Qed.

Lemma exact_sum_Permutation l l' : l ≡ₚ l' → exact_sum l = exact_sum l'.
Proof.
  induction 1 as [|pi l l' _ IH|pi pi' l|l l' l'' _ IH1 _ IH2].
  - reflexivity.
  - by rewrite !exact_sum_cons, IH.
  - rewrite !exact_sum_cons. lia.
  - by rewrite IH1.
Qed.

Lemma exact_sum_nonneg l : Forall (λ pi, 0 ≤ amount pi) l → 0 ≤ exact_sum l.
Proof.
  induction 1 as [|pi l Hpi _ IH]; [done|]. rewrite exact_sum_cons. lia.
Qed.

(** The total depends on the amounts alone. *)
Lemma reduce_total_amounts l :
  reduce_total l =
    foldl (λ sum a, number_add sum (to_double a)) (Finite 0) (amount <$> l).
Proof. unfold reduce_total. by rewrite foldl_fmap. Qed.

(** Within the safe range the fold is the exact sum. *)
Lemma reduce_total_exact_from (l : list PaymentIntent) (acc : Z) :
  0 ≤ acc →
  Forall (λ pi, 0 ≤ amount pi) l →
  acc + exact_sum l ≤ 2 ^ 53 →
  foldl (λ sum pi, number_add sum (to_double (amount pi))) (Finite acc) l =
    Finite (acc + exact_sum l).
Proof.
  intros Hacc Hall. revert acc Hacc.
  induction Hall as [|pi l Hpi Hall IH]; intros acc Hacc Hsum.
  - simpl. f_equal. unfold exact_sum. simpl. lia.
  - rewrite exact_sum_cons in Hsum.
    pose proof (exact_sum_nonneg _ Hall) as Hrest.
    simpl foldl. rewrite (to_double_exact (amount pi)) by lia.
    simpl number_add. rewrite (to_double_exact (acc + amount pi)) by lia.
    rewrite IH by lia. f_equal. rewrite exact_sum_cons. lia.
Qed.

Lemma reduce_total_exact l :
  safe_amounts l → reduce_total l = Finite (exact_sum l).
Proof.
  intros [Hall Hsum]. unfold reduce_total.
  by rewrite reduce_total_exact_from.
Qed.

Lemma safe_amounts_Permutation l l' :
  l ≡ₚ l' → safe_amounts l → safe_amounts l'.
Proof.
  intros Hperm [Hall Hsum]. split.
  - by rewrite <- Hperm.
  - by rewrite <- (exact_sum_Permutation _ _ Hperm).
Qed.

Lemma safe_amounts_app l1 l2 :
  safe_amounts (l1 ++ l2) → safe_amounts l1 ∧ safe_amounts l2.
Proof.
  intros [[H1 H2]%Forall_app Hsum]. rewrite exact_sum_app in Hsum.
  pose proof (exact_sum_nonneg _ H1). pose proof (exact_sum_nonneg _ H2).
  split; (split; [done|lia]).
Qed.

Lemma filter_Permutation_bool {A} (f : A → bool) (l l' : list A) :
  l ≡ₚ l' → List.filter f l ≡ₚ List.filter f l'.
Proof.
  induction 1 as [|x l l' _ IH|x y l|l l' l'' _ IH1 _ IH2]; simpl.
  - reflexivity.
  - destruct (f x); by rewrite IH.
  - destruct (f x), (f y); try reflexivity. apply perm_swap.
  - by rewrite IH1.
Qed.

(** Amounts are integers of at most twelve digits and a page holds at most
    500 records, so every sum the fold forms is an integer that a
    JavaScript number represents exactly. *)
Lemma page_total_is_safe_integer (l : list PaymentIntent) :
  Forall (λ pi, 0 ≤ amount pi ≤ 999999999999) l →
  (length l ≤ 500)%nat →
  safe_amounts l
  ∧ reduce_total l = Finite (exact_sum l)
  ∧ exact_sum l ≤ 2 ^ 53 - 1.
Proof.
  intros Hall Hlen.
  assert (Forall (λ pi, 0 ≤ amount pi) l
          ∧ exact_sum l ≤ 999999999999 * Z.of_nat (length l)) as [Hpos Hsum].
  { clear Hlen. induction Hall as [|pi l Hpi _ [IH1 IH2]].
    - split; [constructor|]. unfold exact_sum. simpl. lia.
    - split; [constructor; [lia|done]|].
      rewrite exact_sum_cons. simpl length. lia. }
  assert (2 ^ 53 = 9007199254740992) as Hpow by reflexivity.
  assert (safe_amounts l) as Hsafe by (split; [done|lia]).
  split; [done|]. split; [by apply reduce_total_exact|]. lia.
Qed.

(** ** What the filter keeps *)

Lemma staff_filter_succeeded staff_name pi :
  staff_filter staff_name pi = true → status pi = "succeeded".
Proof.
  unfold staff_filter. intros [Hstatus _]%andb_prop.
  by apply String.eqb_eq.
Qed.

Lemma staff_filter_not_succeeded staff_name pi :
  status pi ≠ "succeeded" → staff_filter staff_name pi = false.
Proof.
  intros Hstatus. destruct (staff_filter staff_name pi) eqn:Hkeep; [|done].
  by apply staff_filter_succeeded in Hkeep.
Qed.

Lemma filter_without {A} (f : A → bool) (l1 l2 : list A) (x : A) :
  f x = false → List.filter f (l1 ++ x :: l2) = List.filter f (l1 ++ l2).
Proof.
  intros Hx. rewrite !List.filter_app. simpl. by rewrite Hx.
Qed.

Lemma filter_elem_of {A} (f : A → bool) (l : list A) (x : A) :
  x ∈ List.filter f l ↔ x ∈ l ∧ f x = true.
Proof. rewrite !list_elem_of_In. apply List.filter_In. Qed.

Lemma get_summary_transactions filtered :
  get (summary filtered) "transactions" = Some (JIntents filtered).
Proof. reflexivity. Qed.

Lemma get_summary_total filtered :
  get (summary filtered) "total" = Some (number_json (reduce_total filtered)).
Proof. reflexivity. Qed.

Lemma get_summary_count filtered :
  get (summary filtered) "count" =
    Some (JValue (JsNumber (Z.of_nat (length filtered)))).
Proof. reflexivity. Qed.

Lemma get_summary_currency filtered :
  get (summary filtered) "currency" = Some (JValue (first_currency filtered)).
Proof. reflexivity. Qed.

(** ** Status gate of the report *)

(** C1: a ledger record whose status is not 'succeeded' never enters the
    report, whatever selector the request carries: the handler answers
    exactly as it does when the ledger page does not hold the record (same
    count, same total, same transactions), and the record is not among the
    transactions returned. *)
Theorem non_succeeded_never_reported
    (Date_parse : string → option Z) (stripe stripe' : Stripe)
    (body : gmap string value) (R : PaymentIntent)
    (l1 l2 : list PaymentIntent) (more : bool) :
  status R ≠ "succeeded" →
  paymentIntents_list stripe
      (list_params Date_parse (field body "start") (field body "end")) =
    Resolved {| data := l1 ++ R :: l2; has_more := more |} →
  paymentIntents_list stripe'
      (list_params Date_parse (field body "start") (field body "end")) =
    Resolved {| data := l1 ++ l2; has_more := more |} →
  transactions_for_terminal Date_parse stripe body =
    transactions_for_terminal Date_parse stripe' body
  ∧ ∀ txs,
      get (payload (fst (transactions_for_terminal Date_parse stripe body)))
          "transactions" = Some (JIntents txs) →
      R ∉ txs.
Proof.
  intros Hstatus Hwith Hwithout.
  destruct (accepted body) eqn:Hguard.
  - rewrite (reporting_resolved _ _ _ _ Hguard Hwith),
            (reporting_resolved _ _ _ _ Hguard Hwithout).
    simpl data.
    rewrite (filter_without _ _ _ _
               (staff_filter_not_succeeded (field body "staff_name") _ Hstatus)).
    split; [done|].
    intros txs. simpl. intros [= <-].
    rewrite filter_elem_of. intros [_ Hkeep].
    by apply staff_filter_succeeded in Hkeep.
  - destruct (reporting_stopped Date_parse stripe body Hguard)
      as (r & -> & Hnone & Hr).
    destruct (reporting_stopped Date_parse stripe' body Hguard)
      as (r' & -> & _ & Hr').
    split; [congruence|]. intros txs. simpl. congruence.
Qed.

Lemma non_succeeded_never_reported_witness :
  transactions_for_terminal parse_sample
      (ledger [alice_pending; alice_500_usd] false) alice_request =
    transactions_for_terminal parse_sample
      (ledger [alice_500_usd] false) alice_request
  ∧ ∀ txs,
      get (payload (fst (transactions_for_terminal parse_sample
                           (ledger [alice_pending; alice_500_usd] false)
                           alice_request)))
          "transactions" = Some (JIntents txs) →
      alice_pending ∉ txs.
Proof.
  apply (non_succeeded_never_reported parse_sample
           (ledger [alice_pending; alice_500_usd] false)
           (ledger [alice_500_usd] false)
           alice_request alice_pending [] [alice_500_usd] false).
  - vm_compute. discriminate.
  - reflexivity.
  - reflexivity.
Defined.

(** ** Attribution *)

Lemma strict_eq_undefined_truthy v :
  truthy v = true → strict_eq JsUndefined v = false.
Proof. by destruct v. Qed.

(** Where the terminal-label strategy of the specification does not apply,
    the handler's filter is the specification's policy. *)
Lemma staff_filter_spec terminal_label staff_name reader_id pi :
  truthy staff_name = true →
  truthy terminal_label = false ∨ metadata pi !! "terminal_label" = None →
  staff_filter staff_name pi =
    spec_matches terminal_label staff_name reader_id pi.
Proof.
  intros Hstaff Hlabel. unfold staff_filter, spec_matches, spec_strategy.
  f_equal.
  assert (truthy terminal_label
          && bool_decide (is_Some (metadata pi !! "terminal_label")) = false)
    as ->.
  { destruct Hlabel as [->| ->]; [done|].
    rewrite bool_decide_eq_false_2; [apply andb_false_r|].
    by intros [? ?]. }
  rewrite Hstaff. unfold metadata_field.
  destruct (metadata pi !! "staff_name") as [s|]; simpl.
  - done.
  - change (strict_eq JsUndefined staff_name =
            if truthy reader_id then false
            else negb (truthy terminal_label) && false).
    rewrite strict_eq_undefined_truthy by done.
    destruct (truthy reader_id); [done|]. by rewrite andb_false_r.
Qed.

Lemma reporting_ignores_field Date_parse stripe body k v :
  k ≠ "start" → k ≠ "end" → k ≠ "staff_name" →
  transactions_for_terminal Date_parse stripe (<[k := v]> body) =
    transactions_for_terminal Date_parse stripe body.
Proof.
  intros Hstart Hend Hstaff. unfold transactions_for_terminal, field.
  by rewrite !lookup_insert_ne.
Qed.

(** C2 (as the code has it): the reporting handler has a single attribution
    strategy. A record is reported iff its status is 'succeeded' and its
    [staff_name] metadata is strictly equal to the [staff_name] of the
    request; a [terminal_label] sent with the request is never consulted.
    The outcome is that of the specification's priority order whenever its
    terminal-label strategy does not apply (the request carries no
    [terminal_label], or the record has none). *)
Theorem attribution_by_staff_name_only
    (Date_parse : string → option Z) (stripe : Stripe)
    (body : gmap string value) (page : Page) :
  accepted body = true →
  paymentIntents_list stripe
      (list_params Date_parse (field body "start") (field body "end")) =
    Resolved page →
  fst (transactions_for_terminal Date_parse stripe body) =
    res_json (summary (List.filter
      (λ pi, String.eqb (status pi) "succeeded"
             && strict_eq (metadata_field pi "staff_name")
                          (field body "staff_name"))
      (data page)))
  ∧ (∀ v, transactions_for_terminal Date_parse stripe
            (<["terminal_label" := v]> body) =
          transactions_for_terminal Date_parse stripe body)
  ∧ (∀ pi,
       truthy (field body "terminal_label") = false
       ∨ metadata pi !! "terminal_label" = None →
       staff_filter (field body "staff_name") pi =
         spec_matches (field body "terminal_label") (field body "staff_name")
                      (field body "terminal_id") pi).
Proof.
  intros Hguard Hlist. split; [|split].
  - by rewrite (reporting_resolved _ _ _ _ Hguard Hlist).
  - intros v. by apply reporting_ignores_field.
  - intros pi Hlabel. apply staff_filter_spec; [|done].
    by apply accepted_inv in Hguard as (_ & _ & ? & _).
Qed.

Lemma attribution_by_staff_name_only_witness :
  fst (transactions_for_terminal parse_sample
         (ledger [alice_pending; alice_500_usd; bob_300; alice_1000] false)
         alice_at_register_1) =
    res_json (summary [alice_500_usd; alice_1000]).
Proof.
  pose proof (attribution_by_staff_name_only parse_sample
                (ledger [alice_pending; alice_500_usd; bob_300; alice_1000] false)
                alice_at_register_1
                {| data := [alice_pending; alice_500_usd; bob_300; alice_1000];
                   has_more := false |}
                eq_refl eq_refl) as [Hreport _].
  exact Hreport.
Defined.

(** C2, as stated, fails: the request names terminal "Register-1" and
    operator "Alice"; the record was taken on "Register-2" by Alice. The
    specification's first strategy applies and excludes the record, the
    handler reports it. *)
Lemma terminal_label_priority_counterexample :
  truthy (field alice_at_register_1 "terminal_label") = true
  ∧ metadata alice_1000 !! "terminal_label" = Some "Register-2"
  ∧ List.filter
      (spec_matches (field alice_at_register_1 "terminal_label")
                    (field alice_at_register_1 "staff_name")
                    (field alice_at_register_1 "terminal_id"))
      [alice_1000] = []
  ∧ fst (transactions_for_terminal parse_sample (ledger [alice_1000] false)
           alice_at_register_1) =
      res_json (summary [alice_1000]).
Proof. vm_compute. done. Qed.

(** ** Requests without a selector *)

(** C3 (as the code has it): a reporting request that carries no identity
    selector ([staff_name] absent or empty) is rejected with status 400 and
    the message "Missing start, end, or staff_name", however valid its time
    window; no call is issued to the ledger. *)
Theorem no_selector_is_rejected
    (Date_parse : string → option Z) (stripe : Stripe)
    (body : gmap string value) :
  truthy (field body "staff_name") = false →
  transactions_for_terminal Date_parse stripe body =
    (res_status_json 400
       [("error", JValue (JsString "Missing start, end, or staff_name"))], []).
Proof.
  intros Hstaff. apply reporting_refused.
  unfold required. rewrite Hstaff. apply andb_false_r.
Qed.

Lemma no_selector_is_rejected_witness :
  transactions_for_terminal parse_sample (ledger [alice_1000; bob_300] false)
      window =
    (res_status_json 400
       [("error", JValue (JsString "Missing start, end, or staff_name"))], []).
Proof.
  apply (no_selector_is_rejected parse_sample
           (ledger [alice_1000; bob_300] false) window).
  reflexivity.
Defined.

(** C3, as stated, fails: the window is valid, the ledger holds succeeded
    records, the request names no selector; it is answered 400 without any
    ledger call, in this revision and in the earlier one. *)
Lemma no_selector_counterexample :
  to_seconds parse_sample (field window "start") = Some 1704067200
  ∧ to_seconds parse_sample (field window "end") = Some 1704153600
  ∧ code (fst (transactions_for_terminal parse_sample
                 (ledger [alice_1000; bob_300] false) window)) = 400%nat
  ∧ snd (transactions_for_terminal parse_sample
           (ledger [alice_1000; bob_300] false) window) = []
  ∧ code (fst (Rev_terminal_label.transactions_for_terminal parse_sample
                 (ledger [alice_1000; bob_300] false) window)) = 400%nat
  ∧ snd (Rev_terminal_label.transactions_for_terminal parse_sample
           (ledger [alice_1000; bob_300] false) window) = [].
Proof. vm_compute. done. Qed.

Lemma template_converts v :
  converts v = true → Rev_terminal_label.template v = Resolved ().
Proof. by destruct v as [| | | | |ref [prim|message]]. Qed.

Lemma truthy_false_converts v : truthy v = false → converts v = true.
Proof. by destruct v as [| | | | |ref [prim|message]]. Qed.

(** How the earlier revision runs once its template literals and its
    dates are through. *)
Lemma label_revision_runs Date_parse stripe body :
  converts (field body "start") = true →
  converts (field body "end") = true →
  Rev_terminal_label.transactions_for_terminal Date_parse stripe body =
    if negb (truthy (field body "start")) || negb (truthy (field body "end"))
       || (negb (truthy (field body "terminal_id"))
           && negb (truthy (field body "terminal_label")))
    then (res_status_json 400
            [("error", JValue (JsString "Missing start, end, or terminal_id or terminal_label"))],
          [])
    else
      (match paymentIntents_list stripe
               (list_params Date_parse (field body "start") (field body "end"))
       with
       | Resolved page =>
           match Rev_terminal_label.template (field body "terminal_label") with
           | Resolved _ =>
               res_json (summary
                 (List.filter
                    (Rev_terminal_label.label_filter (field body "terminal_label"))
                    (data page)))
           | Rejected message => internal_error message
           end
       | Rejected message => internal_error message
       end,
       [PaymentIntentsList
          (list_params Date_parse (field body "start") (field body "end"))]).
Proof.
  intros Hcs Hce.
  unfold Rev_terminal_label.transactions_for_terminal, try_catch.
  cbn. unfold mbind, async_bind, evaluate.
  rewrite (template_converts _ Hcs), (template_converts _ Hce).
  destruct (negb (truthy (field body "start")) || negb (truthy (field body "end"))
            || (negb (truthy (field body "terminal_id"))
                && negb (truthy (field body "terminal_label")))); [done|].
  cbn. unfold mbind, async_bind, evaluate, await.
  rewrite (seconds_of_converts _ _ Hcs), (seconds_of_converts _ _ Hce).
  change {| created_gte := to_seconds Date_parse (field body "start");
            created_lte := to_seconds Date_parse (field body "end");
            limit := 500 |}
    with (list_params Date_parse (field body "start") (field body "end")).
  destruct (paymentIntents_list stripe _) as [page|message]; [|done].
  cbn. by destruct (Rev_terminal_label.template (field body "terminal_label")).
Qed.

(** The fall-back branch of the earlier revision is reached only by a
    request that names a [terminal_id] and no [terminal_label]; it then keeps
    every succeeded record. *)
Lemma fallback_keeps_all_succeeded Date_parse stripe body page :
  truthy (field body "start") = true →
  truthy (field body "end") = true →
  converts (field body "start") = true →
  converts (field body "end") = true →
  truthy (field body "terminal_id") = true →
  truthy (field body "terminal_label") = false →
  paymentIntents_list stripe
      (list_params Date_parse (field body "start") (field body "end")) =
    Resolved page →
  fst (Rev_terminal_label.transactions_for_terminal Date_parse stripe body) =
    res_json (summary (List.filter (λ pi, String.eqb (status pi) "succeeded")
                                   (data page))).
Proof.
  intros Hstart Hend Hcs Hce Hid Hlabel Hlist.
  rewrite (label_revision_runs _ _ _ Hcs Hce).
  rewrite Hstart, Hend, Hid, Hlabel, Hlist. simpl.
  rewrite (template_converts _ (truthy_false_converts _ Hlabel)).
  unfold Rev_terminal_label.label_filter. by rewrite Hlabel.
Qed.

Lemma earlier_revision_requires_selector Date_parse stripe body :
  converts (field body "start") = true →
  converts (field body "end") = true →
  truthy (field body "terminal_id") = false →
  truthy (field body "terminal_label") = false →
  snd (Rev_terminal_label.transactions_for_terminal Date_parse stripe body) = []
  ∧ code (fst (Rev_terminal_label.transactions_for_terminal
                 Date_parse stripe body)) = 400%nat.
Proof.
  intros Hcs Hce Hid Hlabel.
  rewrite (label_revision_runs _ _ _ Hcs Hce), Hid, Hlabel.
  by destruct (truthy (field body "start")), (truthy (field body "end")).
Qed.

(** ** The time window *)

Lemma to_seconds_floor Date_parse v ms :
  getTime Date_parse v = Some ms →
  ∃ q, to_seconds Date_parse v = Some q ∧ 1000 * q ≤ ms < 1000 * q + 1000.
Proof.
  intros Hms. exists (ms / 1000). unfold to_seconds. rewrite Hms.
  split; [done|].
  pose proof (Z.div_mod ms 1000) as Hdiv.
  pose proof (Z.mod_pos_bound ms 1000). lia.
Qed.

(** C4 (as the code has it): the planner does not compare the two bounds.
    A request whose start lies after its end once both are converted to
    whole seconds (floor of the milliseconds divided by 1000) is not
    rejected: exactly one list call is issued, carrying the inverted bounds
    and the limit 500, and the answer is the summary of what the ledger
    returns, or status 500 with the ledger's message. *)
Theorem inverted_range_is_forwarded
    (Date_parse : string → option Z) (stripe : Stripe)
    (body : gmap string value) (start_ms end_ms : Z) :
  accepted body = true →
  getTime Date_parse (field body "start") = Some start_ms →
  getTime Date_parse (field body "end") = Some end_ms →
  start_ms / 1000 > end_ms / 1000 →
  let params := {| created_gte := Some (start_ms / 1000);
                   created_lte := Some (end_ms / 1000);
                   limit := 500 |} in
  snd (transactions_for_terminal Date_parse stripe body) =
    [PaymentIntentsList params]
  ∧ fst (transactions_for_terminal Date_parse stripe body) =
      match paymentIntents_list stripe params with
      | Resolved page =>
          res_json (summary (List.filter (staff_filter (field body "staff_name"))
                                         (data page)))
      | Rejected message => internal_error message
      end.
Proof.
  intros Hguard Hstart Hend _ params.
  assert (list_params Date_parse (field body "start") (field body "end") = params)
    as Hparams.
  { unfold list_params, to_seconds. by rewrite Hstart, Hend. }
  destruct (paymentIntents_list stripe params) as [page|message] eqn:Hlist;
    rewrite <- Hparams in Hlist.
  - rewrite (reporting_resolved _ _ _ _ Hguard Hlist). by rewrite Hparams.
  - rewrite (reporting_upstream_error _ _ _ _ Hguard Hlist). by rewrite Hparams.
Qed.

Lemma inverted_range_is_forwarded_witness :
  snd (transactions_for_terminal parse_sample (ledger [] false)
         inverted_request) =
    [PaymentIntentsList {| created_gte := Some 1704153600;
                           created_lte := Some 1704067200;
                           limit := 500 |}]
  ∧ fst (transactions_for_terminal parse_sample (ledger [] false)
           inverted_request) =
      res_json (summary []).
Proof.
  apply (inverted_range_is_forwarded parse_sample (ledger [] false)
           inverted_request 1704153600000 1704067200000).
  - reflexivity.
  - reflexivity.
  - reflexivity.
  - vm_compute. reflexivity.
Defined.

(** C4, as stated, fails: start is one day after end; the handler answers
    200 and has issued the list call with [gte] above [lte]. *)
Lemma inverted_range_counterexample :
  to_seconds parse_sample (field inverted_request "start") = Some 1704153600
  ∧ to_seconds parse_sample (field inverted_request "end") = Some 1704067200
  ∧ transactions_for_terminal parse_sample (ledger [] false) inverted_request =
      (res_json (summary []),
       [PaymentIntentsList {| created_gte := Some 1704153600;
                              created_lte := Some 1704067200;
                              limit := 500 |}]).
Proof. vm_compute. done. Qed.

(** ** A page filled to the ceiling *)

(** C5 (as the code has it): when the ledger returns a full page (500
    records), the handler has issued exactly one list call, with limit 500,
    and answers with the summary of that page alone: the response object has
    the keys total, currency, count and transactions and no other, and it is
    the same whether or not the ledger reports further pages. *)
Theorem full_page_summary_is_single_page
    (Date_parse : string → option Z) (stripe : Stripe)
    (body : gmap string value) (page : Page) :
  accepted body = true →
  paymentIntents_list stripe
      (list_params Date_parse (field body "start") (field body "end")) =
    Resolved page →
  length (data page) = ceiling →
  snd (transactions_for_terminal Date_parse stripe body) =
    [PaymentIntentsList
       (list_params Date_parse (field body "start") (field body "end"))]
  ∧ limit (list_params Date_parse (field body "start") (field body "end")) = 500
  ∧ fst (transactions_for_terminal Date_parse stripe body) =
      res_json (summary (List.filter (staff_filter (field body "staff_name"))
                                     (data page)))
  ∧ map fst (payload (fst (transactions_for_terminal Date_parse stripe body))) =
      ["total"; "currency"; "count"; "transactions"]
  ∧ ∀ stripe' more,
      paymentIntents_list stripe'
          (list_params Date_parse (field body "start") (field body "end")) =
        Resolved {| data := data page; has_more := more |} →
      transactions_for_terminal Date_parse stripe' body =
        transactions_for_terminal Date_parse stripe body.
Proof.
  intros Hguard Hlist _.
  rewrite (reporting_resolved _ _ _ _ Hguard Hlist).
  repeat split.
  intros stripe' more Hlist'.
  by rewrite (reporting_resolved _ _ _ _ Hguard Hlist').
Qed.

Lemma full_page_summary_is_single_page_witness :
  snd (transactions_for_terminal parse_sample (ledger full_page true)
         alice_request) =
    [PaymentIntentsList
       (list_params parse_sample (field alice_request "start")
                    (field alice_request "end"))]
  ∧ transactions_for_terminal parse_sample (ledger full_page false)
        alice_request =
      transactions_for_terminal parse_sample (ledger full_page true)
        alice_request.
Proof.
  pose proof (full_page_summary_is_single_page parse_sample
                (ledger full_page true) alice_request
                {| data := full_page; has_more := true |}
                eq_refl eq_refl eq_refl) as (Hcalls & _ & _ & _ & Hsame).
  split; [exact Hcalls|].
  apply (Hsame (ledger full_page false) false). reflexivity.
Defined.

(** C5, as stated, fails: the ledger returns 500 matching records and
    reports that more follow; the handler has issued one list call only and
    answers 200 with count 500 and no "truncated" key. *)
Lemma full_page_counterexample :
  length full_page = ceiling
  ∧ paymentIntents_list (ledger full_page true)
        (list_params parse_sample (field alice_request "start")
                     (field alice_request "end")) =
      Resolved {| data := full_page; has_more := true |}
  ∧ snd (transactions_for_terminal parse_sample (ledger full_page true)
           alice_request) =
      [PaymentIntentsList {| created_gte := Some 1704067200;
                             created_lte := Some 1704153600;
                             limit := 500 |}]
  ∧ code (fst (transactions_for_terminal parse_sample (ledger full_page true)
                 alice_request)) = 200%nat
  ∧ get (payload (fst (transactions_for_terminal parse_sample
                         (ledger full_page true) alice_request)))
        "count" = Some (JValue (JsNumber 500))
  ∧ get (payload (fst (transactions_for_terminal parse_sample
                         (ledger full_page true) alice_request)))
        "truncated" = None.
Proof.
  split; [reflexivity|]. split; [reflexivity|].
  repeat split; vm_compute; reflexivity.
Qed.

(** ** The aggregate *)

Lemma head_filter_find {A} (f : A → bool) (l : list A) :
  head (List.filter f l) = List.find f l.
Proof.
  induction l as [|x l IH]; simpl; [done|]. by destruct (f x).
Qed.

Lemma first_currency_nil : first_currency [] = JsString "eur".
Proof. reflexivity. Qed.

Lemma first_currency_cons pi l :
  currency pi ≠ "" → first_currency (pi :: l) = JsString (currency pi).
Proof.
  intros Hcur. unfold first_currency, js_or. simpl.
  destruct (String.eqb_spec (currency pi) ""); [contradiction|reflexivity].
Qed.

Lemma first_currency_head l :
  first_currency l = first_currency (take 1 l).
Proof. by destruct l. Qed.

(** C6: when no record matches, the summary has count 0, total 0 and the
    fall-back currency "eur"; otherwise its currency is that of the first
    record of the ledger page, in the order the ledger returned it, that
    passes the filter. Ledger currencies are ISO codes, hence not empty. *)
Theorem empty_report_and_first_currency
    (Date_parse : string → option Z) (stripe : Stripe)
    (body : gmap string value) (page : Page) :
  accepted body = true →
  paymentIntents_list stripe
      (list_params Date_parse (field body "start") (field body "end")) =
    Resolved page →
  Forall (λ pi, currency pi ≠ "") (data page) →
  get (payload (fst (transactions_for_terminal Date_parse stripe body))) "count"
    = Some (JValue (JsNumber (Z.of_nat (length
        (List.filter (staff_filter (field body "staff_name")) (data page))))))
  ∧ (List.filter (staff_filter (field body "staff_name")) (data page) = [] →
       get (payload (fst (transactions_for_terminal Date_parse stripe body)))
           "total" = Some (JValue (JsNumber 0))
       ∧ get (payload (fst (transactions_for_terminal Date_parse stripe body)))
             "currency" = Some (JValue (JsString "eur")))
  ∧ (List.filter (staff_filter (field body "staff_name")) (data page) ≠ [] →
       ∃ pi, List.find (staff_filter (field body "staff_name")) (data page)
               = Some pi
             ∧ get (payload (fst (transactions_for_terminal
                                    Date_parse stripe body)))
                   "currency" = Some (JValue (JsString (currency pi)))).
Proof.
  intros Hguard Hlist Hcur.
  rewrite (reporting_resolved _ _ _ _ Hguard Hlist). simpl fst. simpl payload.
  rewrite get_summary_count, get_summary_total, get_summary_currency.
  split; [done|]. split.
  - intros ->. by rewrite reduce_total_nil, first_currency_nil.
  - intros Hsome.
    rewrite <- head_filter_find.
    destruct (List.filter (staff_filter (field body "staff_name")) (data page))
      as [|pi rest] eqn:Hfilter; [done|].
    exists pi. split; [done|].
    rewrite first_currency_cons; [done|].
    assert (pi ∈ data page) as Hin.
    { apply (filter_elem_of (staff_filter (field body "staff_name"))).
      rewrite Hfilter. left. }
    by apply (proj1 (Forall_forall _ _) Hcur).
Qed.

Lemma empty_report_and_first_currency_witness :
  get (payload (fst (transactions_for_terminal parse_sample
                       (ledger [bob_300; alice_500_usd; alice_1000] false)
                       alice_request)))
      "currency" = Some (JValue (JsString "usd"))
  ∧ get (payload (fst (transactions_for_terminal parse_sample
                         (ledger [bob_300] false) alice_request)))
        "currency" = Some (JValue (JsString "eur")).
Proof.
  split.
  - destruct (empty_report_and_first_currency parse_sample
                (ledger [bob_300; alice_500_usd; alice_1000] false)
                alice_request
                {| data := [bob_300; alice_500_usd; alice_1000];
                   has_more := false |} eq_refl eq_refl)
      as (_ & _ & Hfirst).
    + repeat constructor; vm_compute; discriminate.
    + destruct Hfirst as (pi & Hfind & Hcurrency); [vm_compute; discriminate|].
      vm_compute in Hfind. injection Hfind as <-. exact Hcurrency.
  - destruct (empty_report_and_first_currency parse_sample
                (ledger [bob_300] false) alice_request
                {| data := [bob_300]; has_more := false |} eq_refl eq_refl)
      as (_ & Hempty & _).
    + repeat constructor; vm_compute; discriminate.
    + apply Hempty. reflexivity.
Defined.

(** C7 (as the code has it): the count never depends on the order of the
    records of the page. The total does not depend on it either as long as
    the matching amounts add up without rounding (none is negative and their
    sum is at most 2^53): it is then their exact sum, for every permutation
    of the page. *)
Theorem total_and_count_order_independent
    (Date_parse : string → option Z) (stripe stripe' : Stripe)
    (body : gmap string value) (page page' : Page) :
  accepted body = true →
  data page ≡ₚ data page' →
  paymentIntents_list stripe
      (list_params Date_parse (field body "start") (field body "end")) =
    Resolved page →
  paymentIntents_list stripe'
      (list_params Date_parse (field body "start") (field body "end")) =
    Resolved page' →
  (∃ count,
     get (payload (fst (transactions_for_terminal Date_parse stripe body)))
         "count" = Some (JValue (JsNumber count))
     ∧ get (payload (fst (transactions_for_terminal Date_parse stripe' body)))
           "count" = Some (JValue (JsNumber count)))
  ∧ (safe_amounts
       (List.filter (staff_filter (field body "staff_name")) (data page)) →
     get (payload (fst (transactions_for_terminal Date_parse stripe body)))
         "total" =
       Some (JValue (JsNumber (exact_sum
         (List.filter (staff_filter (field body "staff_name")) (data page)))))
     ∧ get (payload (fst (transactions_for_terminal Date_parse stripe' body)))
           "total" =
         Some (JValue (JsNumber (exact_sum
           (List.filter (staff_filter (field body "staff_name"))
                        (data page)))))).
Proof.
  intros Hguard Hperm Hlist Hlist'.
  rewrite (reporting_resolved _ _ _ _ Hguard Hlist),
          (reporting_resolved _ _ _ _ Hguard Hlist').
  simpl fst. simpl payload.
  rewrite !get_summary_count, !get_summary_total.
  apply (filter_Permutation_bool (staff_filter (field body "staff_name")))
    in Hperm.
  split.
  - eexists. split; [reflexivity|]. by rewrite (Permutation_length Hperm).
  - intros Hsafe.
    rewrite (reduce_total_exact _ Hsafe).
    rewrite (reduce_total_exact _ (safe_amounts_Permutation _ _ Hperm Hsafe)).
    by rewrite (exact_sum_Permutation _ _ Hperm).
Qed.

Lemma total_and_count_order_independent_witness :
  get (payload (fst (transactions_for_terminal parse_sample
                       (ledger [alice_1000; bob_300; alice_500_usd] false)
                       alice_request)))
      "total" = Some (JValue (JsNumber 1500))
  ∧ get (payload (fst (transactions_for_terminal parse_sample
                         (ledger [alice_500_usd; alice_1000; bob_300] false)
                         alice_request)))
        "total" = Some (JValue (JsNumber 1500)).
Proof.
  destruct (total_and_count_order_independent parse_sample
              (ledger [alice_1000; bob_300; alice_500_usd] false)
              (ledger [alice_500_usd; alice_1000; bob_300] false)
              alice_request
              {| data := [alice_1000; bob_300; alice_500_usd];
                 has_more := false |}
              {| data := [alice_500_usd; alice_1000; bob_300];
                 has_more := false |})
    as [_ Htotal].
  - vm_compute. reflexivity.
  - simpl. rewrite (Permutation_app_comm [alice_500_usd] [alice_1000; bob_300]).
    reflexivity.
  - reflexivity.
  - reflexivity.
  - apply Htotal. split.
    + repeat constructor; vm_compute; discriminate.
    + vm_compute. discriminate.
Defined.

(** C7, as stated, fails: three matching records of 2^53, 1 and 1 minor
    units. With the large amount first each unit is lost to rounding, with
    the large amount last the two units are added first and kept. *)
Lemma total_order_counterexample :
  [alice_2_53; alice_1; alice_1] ≡ₚ [alice_1; alice_1; alice_2_53]
  ∧ get (payload (fst (transactions_for_terminal parse_sample
                         (ledger [alice_2_53; alice_1; alice_1] false)
                         alice_request)))
        "total" = Some (JValue (JsNumber 9007199254740992))
  ∧ get (payload (fst (transactions_for_terminal parse_sample
                         (ledger [alice_1; alice_1; alice_2_53] false)
                         alice_request)))
        "total" = Some (JValue (JsNumber 9007199254740994)).
Proof.
  split; [apply (Permutation_app_comm [alice_2_53] [alice_1; alice_1])|].
  split; vm_compute; reflexivity.
Qed.

(** ** Receipt update *)

Lemma missing_or_empty_falsy v : missing_or_empty v = true → truthy v = false.
Proof.
  destruct v; simpl; try done. intros ->. reflexivity.
Qed.

Lemma update_rejected_early stripe body :
  truthy (field body "payment_intent_id") = false
  ∨ truthy (field body "receipt_email") = false →
  update_payment_intent stripe body =
    (res_status_json 400
       [("error", JValue (JsString "Missing payment_intent_id or receipt_email"))],
     []).
Proof.
  unfold update_payment_intent, try_catch.
  intros [-> | ->]; [done|]. by rewrite orb_true_r.
Qed.

(** C8: an update whose [payment_intent_id] or [receipt_email] is missing
    or empty is answered with status 400 and the validation message, and no
    call is issued to the ledger. *)
Theorem update_requires_id_and_email
    (stripe : Stripe) (body : gmap string value) :
  missing_or_empty (field body "payment_intent_id") = true
  ∨ missing_or_empty (field body "receipt_email") = true →
  update_payment_intent stripe body =
    (res_status_json 400
       [("error", JValue (JsString "Missing payment_intent_id or receipt_email"))],
     []).
Proof.
  intros Hmissing. apply update_rejected_early.
  destruct Hmissing as [H|H]; apply missing_or_empty_falsy in H; auto.
Qed.

Lemma update_requires_id_and_email_witness :
  update_payment_intent accepting
      {[ "payment_intent_id" := JsString "pi_1";
         "receipt_email" := JsString "" ]} =
    (res_status_json 400
       [("error", JValue (JsString "Missing payment_intent_id or receipt_email"))],
     []).
Proof.
  apply (update_requires_id_and_email accepting
           {[ "payment_intent_id" := JsString "pi_1";
              "receipt_email" := JsString "" ]}).
  right. reflexivity.
Defined.

(** With both fields present the update call is issued. *)
Lemma update_forwarded stripe body :
  truthy (field body "payment_intent_id") = true →
  truthy (field body "receipt_email") = true →
  snd (update_payment_intent stripe body) =
    [PaymentIntentsUpdate (field body "payment_intent_id")
                          (field body "receipt_email")].
Proof.
  intros Hid Hemail. unfold update_payment_intent, try_catch.
  rewrite Hid, Hemail. cbn. unfold mbind, async_bind, await.
  by destruct (paymentIntents_update stripe _ _).
Qed.

(** ** Attribution written at creation *)

Lemma create_calls stripe body :
  snd (create_payment_intent stripe body) =
    [PaymentIntentsCreate (create_params body)].
Proof.
  unfold create_payment_intent, try_catch. cbn.
  unfold mbind, async_bind, await.
  by destruct (paymentIntents_create stripe _).
Qed.

Lemma create_metadata_staff_name body :
  cp_metadata (create_params body) !! "staff_name" =
    Some (js_or (field body "staff_name") (JsString "Unknown")).
Proof. simpl. by rewrite lookup_insert_ne, lookup_singleton_eq. Qed.





(** ** Currencies *)

Lemma staff_filter_with_currency staff_name c pi :
  staff_filter staff_name (with_currency c pi) = staff_filter staff_name pi.
Proof. reflexivity. Qed.

Lemma filter_relabel staff_name (relabel : PaymentIntent → string) l :
  List.filter (staff_filter staff_name)
              (map (λ pi, with_currency (relabel pi) pi) l) =
    map (λ pi, with_currency (relabel pi) pi)
        (List.filter (staff_filter staff_name) l).
Proof.
  induction l as [|pi l IH]; simpl; [done|].
  rewrite staff_filter_with_currency.
  destruct (staff_filter staff_name pi); simpl; by rewrite IH.
Qed.

Lemma reduce_total_relabel (relabel : PaymentIntent → string) l :
  reduce_total (map (λ pi, with_currency (relabel pi) pi) l) = reduce_total l.
Proof.
  unfold reduce_total. generalize (Finite 0).
  induction l as [|pi l IH]; intros acc; simpl; [done|]. apply IH.
Qed.

(** C10 (as the code has it): the total is the sum of the amounts of all
    matching records, added as doubles, whatever their currencies: giving
    the records of the page any other currencies leaves the total
    unchanged, and where the amounts add up without rounding (none negative,
    sum at most 2^53) the total is their exact sum. The currency of the
    summary is that of the first matching record, whatever the currencies of
    the other records. *)
Theorem total_mixes_currencies
    (Date_parse : string → option Z) (stripe stripe' : Stripe)
    (body : gmap string value) (page : Page)
    (relabel : PaymentIntent → string) :
  accepted body = true →
  paymentIntents_list stripe
      (list_params Date_parse (field body "start") (field body "end")) =
    Resolved page →
  paymentIntents_list stripe'
      (list_params Date_parse (field body "start") (field body "end")) =
    Resolved {| data := map (λ pi, with_currency (relabel pi) pi) (data page);
                has_more := has_more page |} →
  get (payload (fst (transactions_for_terminal Date_parse stripe' body)))
      "total" =
    get (payload (fst (transactions_for_terminal Date_parse stripe body)))
        "total"
  ∧ (safe_amounts
       (List.filter (staff_filter (field body "staff_name")) (data page)) →
     get (payload (fst (transactions_for_terminal Date_parse stripe body)))
         "total" =
       Some (JValue (JsNumber (exact_sum
         (List.filter (staff_filter (field body "staff_name")) (data page))))))
  ∧ (∀ pi rest,
       List.filter (staff_filter (field body "staff_name")) (data page)
         = pi :: rest →
       (currency pi ≠ "" →
        get (payload (fst (transactions_for_terminal Date_parse stripe body)))
            "currency" = Some (JValue (JsString (currency pi))))
       ∧ (relabel pi ≠ "" →
          get (payload (fst (transactions_for_terminal Date_parse stripe' body)))
              "currency" = Some (JValue (JsString (relabel pi))))).
Proof.
  intros Hguard Hlist Hlist'.
  rewrite (reporting_resolved _ _ _ _ Hguard Hlist),
          (reporting_resolved _ _ _ _ Hguard Hlist').
  simpl fst. simpl payload. simpl data.
  rewrite !get_summary_total, !get_summary_currency.
  split; [by rewrite filter_relabel, reduce_total_relabel|].
  split; [intros Hsafe; by rewrite (reduce_total_exact _ Hsafe)|].
  intros pi rest Hmatching. rewrite filter_relabel, Hmatching. simpl map.
  split; intros Hcur; by rewrite first_currency_cons.
Qed.

Lemma total_mixes_currencies_witness :
  get (payload (fst (transactions_for_terminal parse_sample
                       (ledger [alice_500_usd; alice_1000] false)
                       alice_request)))
      "total" = Some (JValue (JsNumber 1500))
  ∧ get (payload (fst (transactions_for_terminal parse_sample
                         (ledger [alice_500_usd; alice_1000] false)
                         alice_request)))
        "currency" = Some (JValue (JsString "usd"))
  ∧ get (payload (fst (transactions_for_terminal parse_sample
                         (ledger [with_currency "eur" alice_500_usd;
                                  with_currency "eur" alice_1000] false)
                         alice_request)))
        "currency" = Some (JValue (JsString "eur")).
Proof.
  destruct (total_mixes_currencies parse_sample
              (ledger [alice_500_usd; alice_1000] false)
              (ledger [with_currency "eur" alice_500_usd;
                       with_currency "eur" alice_1000] false)
              alice_request
              {| data := [alice_500_usd; alice_1000]; has_more := false |}
              (λ _, "eur"))
    as (_ & Htotal & Hcurrency).
  - vm_compute. reflexivity.
  - reflexivity.
  - reflexivity.
  - split.
    + apply Htotal. split.
      * repeat constructor; vm_compute; discriminate.
      * vm_compute. discriminate.
    + destruct (Hcurrency alice_500_usd [alice_1000]) as [Hfirst Hrelabelled].
      * vm_compute. reflexivity.
      * split; [apply Hfirst|apply Hrelabelled]; discriminate.
Defined.

(** C10, as stated, fails where the sum does not fit a double: for three
    matching records of 2^53, 1 and 1 minor units the sum of the amounts is
    2^53 + 2 and the total reported is 2^53. *)
Lemma total_is_rounded_counterexample :
  exact_sum [alice_2_53; alice_1; alice_1] = 9007199254740994
  ∧ fst (transactions_for_terminal parse_sample
           (ledger [alice_2_53; alice_1; alice_1] false) alice_request) =
      res_json [("total", JValue (JsNumber 9007199254740992));
                ("currency", JValue (JsString "eur"));
                ("count", JValue (JsNumber 3));
                ("transactions", JIntents [alice_2_53; alice_1; alice_1])].
Proof. split; vm_compute; reflexivity. Qed.

(** Two succeeded payments of one operator, 500 in "usd" and 1000 in "eur":
    the report adds them to 1500 and labels the sum "usd". *)
Example mixed_currency_report :
  fst (transactions_for_terminal parse_sample
         (ledger [alice_500_usd; alice_1000] false) alice_request) =
    res_json [("total", JValue (JsNumber 1500));
              ("currency", JValue (JsString "usd"));
              ("count", JValue (JsNumber 2));
              ("transactions", JIntents [alice_500_usd; alice_1000])].
Proof. vm_compute. reflexivity. Qed.

(** * Further properties of the handlers *)

(** ** The reporting handler *)

Lemma strict_eq_metadata pi k v :
  strict_eq (metadata_field pi k) v = true → metadata_field pi k = v.
Proof.
  unfold metadata_field.
  destruct (metadata pi !! k) as [s|]; destruct v; simpl; try discriminate.
  - by intros ->%String.eqb_eq.
  - done.
Qed.

Lemma staff_filter_metadata staff_name pi :
  staff_filter staff_name pi = true →
  metadata_field pi "staff_name" = staff_name.
Proof.
  unfold staff_filter. intros [_ Heq]%andb_prop. by apply strict_eq_metadata.
Qed.

Lemma filter_sublist {A} (f : A → bool) (l : list A) :
  List.filter f l `sublist_of` l.
Proof.
  induction l as [|x l IH]; simpl; [constructor|].
  destruct (f x); by constructor.
Qed.

Lemma filter_none {A} (f : A → bool) (l : list A) :
  (∀ x, x ∈ l → f x = false) → List.filter f l = [].
Proof.
  induction l as [|x l IH]; intros Hall; simpl; [done|].
  rewrite (Hall x) by left. apply IH. intros y Hy. apply Hall. by right.
Qed.

Lemma seconds_of_new_Date Date_parse v message :
  new_Date Date_parse v = Rejected message →
  seconds_of Date_parse v = Rejected message.
Proof. unfold seconds_of. by intros ->. Qed.

Lemma reporting_answer
    (Date_parse : string → option Z) (stripe : Stripe)
    (body : gmap string value) :
  (code (fst (transactions_for_terminal Date_parse stripe body)) = 400%nat
     ↔ required body = false)
  ∧ (snd (transactions_for_terminal Date_parse stripe body) = []
     ↔ accepted body = false)
  ∧ (accepted body = true →
     snd (transactions_for_terminal Date_parse stripe body) =
       [PaymentIntentsList
          {| created_gte := to_seconds Date_parse (field body "start");
             created_lte := to_seconds Date_parse (field body "end");
             limit := 500 |}]
     ∧ (code (fst (transactions_for_terminal Date_parse stripe body)) = 200%nat
        ∨ code (fst (transactions_for_terminal Date_parse stripe body))
          = 500%nat))
  ∧ (required body = true → accepted body = false →
     code (fst (transactions_for_terminal Date_parse stripe body)) = 500%nat).
Proof.
  destruct (accepted body) eqn:Hguard.
  - assert (required body = true) as Hreq.
    { unfold accepted in Hguard.
      by apply andb_prop in Hguard as [[? _]%andb_prop _]. }
    rewrite (reporting_runs _ _ _ Hguard), Hreq.
    destruct (paymentIntents_list stripe _) as [page|message]; simpl;
      repeat split; try done; auto.
  - destruct (reporting_stopped Date_parse stripe body Hguard)
      as (r & -> & _ & ->).
    destruct (required body); simpl.
    + repeat split; try done.
      * by destruct (seconds_of Date_parse (field body "start")),
                    (seconds_of Date_parse (field body "end")).
      * intros _ _.
        by destruct (seconds_of Date_parse (field body "start")),
                    (seconds_of Date_parse (field body "end")).
    + repeat split; done.
Qed.

(** X1: the report is refused with status 400 exactly when start, end or
    staff_name is missing or falsy. A request that passes this guard but
    whose start or end cannot be converted to a primitive is answered 500
    with the message of the TypeError that [new Date] throws. In these two
    cases, and in no other, no call reaches the ledger; every other request
    issues one list call, with limit 500, and is answered 200 or 500. *)
Theorem report_outcomes
    (Date_parse : string → option Z) (stripe : Stripe)
    (body : gmap string value) :
  (code (fst (transactions_for_terminal Date_parse stripe body)) = 400%nat
     ↔ required body = false)
  ∧ (∀ message,
       required body = true →
       new_Date Date_parse (field body "start") = Rejected message
       ∨ (converts (field body "start") = true
          ∧ new_Date Date_parse (field body "end") = Rejected message) →
       transactions_for_terminal Date_parse stripe body =
         (res_status_json 500 [("error", JValue (JsString message))], []))
  ∧ (snd (transactions_for_terminal Date_parse stripe body) = []
     ↔ accepted body = false)
  ∧ (accepted body = true →
     snd (transactions_for_terminal Date_parse stripe body) =
       [PaymentIntentsList
          {| created_gte := to_seconds Date_parse (field body "start");
             created_lte := to_seconds Date_parse (field body "end");
             limit := 500 |}]
     ∧ (code (fst (transactions_for_terminal Date_parse stripe body)) = 200%nat
        ∨ code (fst (transactions_for_terminal Date_parse stripe body))
          = 500%nat)).
Proof.
  destruct (reporting_answer Date_parse stripe body)
    as (H400 & Hcalls & Hrun & _).
  split; [done|]. split; [|done].
  intros message Hreq Hthrow. apply reporting_thrown; [done|].
  destruct Hthrow as [Hstart|[Hcs Hend]].
  - left. by apply seconds_of_new_Date.
  - right. split; [done|]. by apply seconds_of_new_Date.
Qed.

(** A request whose start carries a [toString] of its own passes the guard
    and is answered 500 before any call. *)
Example unconvertible_start_report :
  required (<["start" := unconvertible]> alice_request) = true
  ∧ transactions_for_terminal parse_sample (ledger [alice_1000] false)
        (<["start" := unconvertible]> alice_request) =
      (res_status_json 500
         [("error",
           JValue (JsString "Cannot convert object to primitive value"))],
       []).
Proof. split; vm_compute; reflexivity. Qed.

(** X2: when the list call is rejected, the report is answered with status
    500 carrying the ledger's message unchanged, after that single call. *)
Theorem report_surfaces_ledger_message
    (Date_parse : string → option Z) (stripe : Stripe)
    (body : gmap string value) (message : string) :
  accepted body = true →
  paymentIntents_list stripe
      (list_params Date_parse (field body "start") (field body "end")) =
    Rejected message →
  transactions_for_terminal Date_parse stripe body =
    (res_status_json 500 [("error", JValue (JsString message))],
     [PaymentIntentsList
        (list_params Date_parse (field body "start") (field body "end"))]).
Proof. intros Hguard Hlist. by rewrite (reporting_upstream_error _ _ _ _ Hguard Hlist). Qed.

Lemma report_surfaces_ledger_message_witness :
  transactions_for_terminal parse_sample (failing "Invalid API Key provided")
      alice_request =
    (res_status_json 500
       [("error", JValue (JsString "Invalid API Key provided"))],
     [PaymentIntentsList
        (list_params parse_sample (field alice_request "start")
                     (field alice_request "end"))]).
Proof.
  apply (report_surfaces_ledger_message parse_sample
           (failing "Invalid API Key provided") alice_request
           "Invalid API Key provided").
  - vm_compute. reflexivity.
  - reflexivity.
Defined.

(** X3: a start that is present and can be converted, but is no date (a
    string that does not parse, a number out of range), is not refused: the
    list call is issued with NaN as its lower bound. *)
Theorem unparseable_start_is_forwarded
    (Date_parse : string → option Z) (stripe : Stripe)
    (body : gmap string value) :
  accepted body = true →
  getTime Date_parse (field body "start") = None →
  snd (transactions_for_terminal Date_parse stripe body) =
    [PaymentIntentsList
       {| created_gte := None;
          created_lte := to_seconds Date_parse (field body "end");
          limit := 500 |}]
  ∧ code (fst (transactions_for_terminal Date_parse stripe body)) ≠ 400%nat.
Proof.
  intros Hguard Hstart.
  destruct (reporting_answer Date_parse stripe body) as (_ & _ & Hcalls & _).
  destruct (Hcalls Hguard) as [-> Hok]. unfold to_seconds at 1. rewrite Hstart.
  split; [done|]. destruct Hok as [-> | ->]; done.
Qed.

Lemma unparseable_start_is_forwarded_witness :
  snd (transactions_for_terminal parse_sample (ledger [] false)
         (<["start" := JsString "yesterday"]> alice_request)) =
    [PaymentIntentsList
       {| created_gte := None; created_lte := Some 1704153600; limit := 500 |}]
  ∧ code (fst (transactions_for_terminal parse_sample (ledger [] false)
                 (<["start" := JsString "yesterday"]> alice_request)))
    ≠ 400%nat.
Proof.
  assert (to_seconds parse_sample
            (field (<["start" := JsString "yesterday"]> alice_request) "end")
          = Some 1704153600) as Hend by (vm_compute; reflexivity).
  rewrite <- Hend.
  apply (unparseable_start_is_forwarded parse_sample (ledger [] false)
           (<["start" := JsString "yesterday"]> alice_request)).
  - vm_compute. reflexivity.
  - vm_compute. reflexivity.
Defined.

(** X4: the bounds of the list call are the whole seconds at or below the
    two instants, also before the epoch, and a window given in order stays
    in order. *)
Theorem window_bounds
    (Date_parse : string → option Z) (stripe : Stripe)
    (body : gmap string value) (start_ms end_ms : Z) :
  accepted body = true →
  getTime Date_parse (field body "start") = Some start_ms →
  getTime Date_parse (field body "end") = Some end_ms →
  ∃ gte lte,
    snd (transactions_for_terminal Date_parse stripe body) =
      [PaymentIntentsList
         {| created_gte := Some gte; created_lte := Some lte; limit := 500 |}]
    ∧ 1000 * gte ≤ start_ms < 1000 * gte + 1000
    ∧ 1000 * lte ≤ end_ms < 1000 * lte + 1000
    ∧ (start_ms ≤ end_ms → gte ≤ lte).
Proof.
  intros Hguard Hstart Hend.
  destruct (reporting_answer Date_parse stripe body) as (_ & _ & Hcalls & _).
  destruct (Hcalls Hguard) as [-> _].
  destruct (to_seconds_floor _ _ _ Hstart) as (gte & -> & Hgte).
  destruct (to_seconds_floor _ _ _ Hend) as (lte & -> & Hlte).
  exists gte, lte. repeat split; lia.
Qed.

Lemma window_bounds_witness :
  ∃ gte lte,
    snd (transactions_for_terminal parse_sample (ledger [] false)
           {[ "start" := JsNumber (-1); "end" := JsNumber 1999;
              "staff_name" := JsString "Alice" ]}) =
      [PaymentIntentsList
         {| created_gte := Some gte; created_lte := Some lte; limit := 500 |}]
    ∧ 1000 * gte ≤ -1 < 1000 * gte + 1000
    ∧ 1000 * lte ≤ 1999 < 1000 * lte + 1000
    ∧ (-1 ≤ 1999 → gte ≤ lte).
Proof.
  apply (window_bounds parse_sample (ledger [] false)
           {[ "start" := JsNumber (-1); "end" := JsNumber 1999;
              "staff_name" := JsString "Alice" ]} (-1) 1999).
  - vm_compute. reflexivity.
  - vm_compute. reflexivity.
  - vm_compute. reflexivity.
Defined.

(** X5: a report that is answered 200 is consistent with itself and with
    the ledger page: its transactions are records of the page in the order
    of the page, each succeeded and carrying the requested staff_name; its
    count is their number, and its total is the sum of their amounts
    whenever these add up without rounding (none negative, sum at most
    2^53). *)
Theorem report_is_consistent
    (Date_parse : string → option Z) (stripe : Stripe)
    (body : gmap string value) (page : Page) :
  accepted body = true →
  paymentIntents_list stripe
      (list_params Date_parse (field body "start") (field body "end")) =
    Resolved page →
  ∃ txs,
    get (payload (fst (transactions_for_terminal Date_parse stripe body)))
        "transactions" = Some (JIntents txs)
    ∧ txs `sublist_of` data page
    ∧ Forall (λ pi, status pi = "succeeded"
                    ∧ metadata_field pi "staff_name" = field body "staff_name")
             txs
    ∧ get (payload (fst (transactions_for_terminal Date_parse stripe body)))
          "count" = Some (JValue (JsNumber (Z.of_nat (length txs))))
    ∧ (safe_amounts txs →
       get (payload (fst (transactions_for_terminal Date_parse stripe body)))
           "total" = Some (JValue (JsNumber (exact_sum txs)))).
Proof.
  intros Hguard Hlist.
  rewrite (reporting_resolved _ _ _ _ Hguard Hlist). simpl fst. simpl payload.
  eexists. split; [apply get_summary_transactions|].
  split; [apply filter_sublist|]. split.
  - apply Forall_forall. intros pi [_ Hkeep]%filter_elem_of.
    split; [by apply staff_filter_succeeded in Hkeep|].
    by apply staff_filter_metadata.
  - rewrite get_summary_count, get_summary_total. split; [done|].
    intros Hsafe. by rewrite (reduce_total_exact _ Hsafe).
Qed.

Lemma report_is_consistent_witness :
  ∃ txs,
    get (payload (fst (transactions_for_terminal parse_sample
                         (ledger [alice_pending; alice_500_usd; bob_300;
                                  alice_1000] false)
                         alice_request)))
        "transactions" = Some (JIntents txs)
    ∧ txs `sublist_of` [alice_pending; alice_500_usd; bob_300; alice_1000]
    ∧ Forall (λ pi, status pi = "succeeded"
                    ∧ metadata_field pi "staff_name"
                      = field alice_request "staff_name")
             txs
    ∧ get (payload (fst (transactions_for_terminal parse_sample
                           (ledger [alice_pending; alice_500_usd; bob_300;
                                    alice_1000] false)
                           alice_request)))
          "count" = Some (JValue (JsNumber (Z.of_nat (length txs))))
    ∧ (safe_amounts txs →
       get (payload (fst (transactions_for_terminal parse_sample
                            (ledger [alice_pending; alice_500_usd; bob_300;
                                     alice_1000] false)
                            alice_request)))
           "total" = Some (JValue (JsNumber (exact_sum txs)))).
Proof.
  apply (report_is_consistent parse_sample
           (ledger [alice_pending; alice_500_usd; bob_300; alice_1000] false)
           alice_request
           {| data := [alice_pending; alice_500_usd; bob_300; alice_1000];
              has_more := false |}).
  - vm_compute. reflexivity.
  - reflexivity.
Defined.

(** X6: reports for two different operator names never share a record,
    whatever the two windows and ledgers. *)
Theorem operators_do_not_share_records
    (Date_parse Date_parse' : string → option Z) (stripe stripe' : Stripe)
    (body body' : gmap string value) (a b : string)
    (txs txs' : list PaymentIntent) (pi : PaymentIntent) :
  a ≠ b →
  field body "staff_name" = JsString a →
  field body' "staff_name" = JsString b →
  get (payload (fst (transactions_for_terminal Date_parse stripe body)))
      "transactions" = Some (JIntents txs) →
  get (payload (fst (transactions_for_terminal Date_parse' stripe' body')))
      "transactions" = Some (JIntents txs') →
  pi ∈ txs → pi ∉ txs'.
Proof.
  intros Hne Ha Hb Htxs Htxs' Hin Hin'.
  assert (∀ parse ledger request name list,
            field request "staff_name" = JsString name →
            get (payload (fst (transactions_for_terminal parse ledger request)))
                "transactions" = Some (JIntents list) →
            pi ∈ list → metadata_field pi "staff_name" = JsString name)
    as Hname.
  { intros parse ledger request name list Hsel Hget Hmem.
    destruct (accepted request) eqn:Hguard.
    - destruct (paymentIntents_list ledger
                  (list_params parse (field request "start")
                               (field request "end")))
        as [page|message] eqn:Hlist.
      + rewrite (reporting_resolved _ _ _ _ Hguard Hlist) in Hget.
        simpl in Hget. injection Hget as <-.
        apply filter_elem_of in Hmem as [_ Hkeep].
        rewrite <- Hsel. by apply staff_filter_metadata.
      + rewrite (reporting_upstream_error _ _ _ _ Hguard Hlist) in Hget.
        discriminate.
    - destruct (reporting_stopped parse ledger request Hguard)
        as (r & Hrun & Hnone & _).
      rewrite Hrun in Hget. simpl in Hget. congruence. }
  pose proof (Hname _ _ _ _ _ Ha Htxs Hin) as H1.
  pose proof (Hname _ _ _ _ _ Hb Htxs' Hin') as H2.
  congruence.
Qed.

Lemma operators_do_not_share_records_witness :
  alice_1000 ∉ [bob_300].
Proof.
  apply (operators_do_not_share_records parse_sample parse_sample
           (ledger [alice_1000; bob_300] false)
           (ledger [alice_1000; bob_300] false)
           alice_request (<["staff_name" := JsString "Bob"]> window)
           "Alice" "Bob" [alice_1000] [bob_300] alice_1000).
  - discriminate.
  - vm_compute. reflexivity.
  - vm_compute. reflexivity.
  - vm_compute. reflexivity.
  - vm_compute. reflexivity.
  - left.
Defined.

(** X7: a staff_name that is present but is not a string (a number, [true],
    an object) matches no record, since metadata values are strings and the
    comparison is strict: the report is the empty one. *)
Theorem non_string_selector_reports_nothing
    (Date_parse : string → option Z) (stripe : Stripe)
    (body : gmap string value) (page : Page) :
  accepted body = true →
  (∀ s, field body "staff_name" ≠ JsString s) →
  paymentIntents_list stripe
      (list_params Date_parse (field body "start") (field body "end")) =
    Resolved page →
  fst (transactions_for_terminal Date_parse stripe body) =
    res_json [("total", JValue (JsNumber 0));
              ("currency", JValue (JsString "eur"));
              ("count", JValue (JsNumber 0));
              ("transactions", JIntents [])].
Proof.
  intros Hguard Hnot Hlist.
  rewrite (reporting_resolved _ _ _ _ Hguard Hlist). simpl fst.
  assert (List.filter (staff_filter (field body "staff_name")) (data page) = [])
    as ->; [|done].
  apply filter_none. intros pi _.
  destruct (staff_filter (field body "staff_name") pi) eqn:Hkeep; [|done].
  apply staff_filter_metadata in Hkeep. unfold metadata_field in Hkeep.
  destruct (metadata pi !! "staff_name") as [s|]; simpl in Hkeep.
  - by destruct (Hnot s).
  - apply accepted_inv in Hguard as (_ & _ & Htruthy & _).
    rewrite <- Hkeep in Htruthy. discriminate.
Qed.

Lemma non_string_selector_reports_nothing_witness :
  fst (transactions_for_terminal parse_sample
         (ledger [intent "pi_7" 900 "eur" "succeeded" [("staff_name", "5")]]
                 false)
         (<["staff_name" := JsNumber 5]> window)) =
    res_json [("total", JValue (JsNumber 0));
              ("currency", JValue (JsString "eur"));
              ("count", JValue (JsNumber 0));
              ("transactions", JIntents [])].
Proof.
  apply (non_string_selector_reports_nothing parse_sample
           (ledger [intent "pi_7" 900 "eur" "succeeded" [("staff_name", "5")]]
                   false)
           (<["staff_name" := JsNumber 5]> window)
           {| data := [intent "pi_7" 900 "eur" "succeeded"
                              [("staff_name", "5")]];
              has_more := false |}).
  - vm_compute. reflexivity.
  - intros s. vm_compute. discriminate.
  - reflexivity.
Defined.

(** X8: a record that carries no staff_name metadata (one created before
    the metadata was written) is in no report, whatever the request. *)
Theorem unattributed_record_is_never_reported
    (Date_parse : string → option Z) (stripe : Stripe)
    (body : gmap string value) (pi : PaymentIntent)
    (txs : list PaymentIntent) :
  metadata pi !! "staff_name" = None →
  get (payload (fst (transactions_for_terminal Date_parse stripe body)))
      "transactions" = Some (JIntents txs) →
  pi ∉ txs.
Proof.
  intros Hnone Hget Hin.
  destruct (accepted body) eqn:Hguard.
  - destruct (paymentIntents_list stripe
                (list_params Date_parse (field body "start") (field body "end")))
      as [page|message] eqn:Hlist.
    + rewrite (reporting_resolved _ _ _ _ Hguard Hlist) in Hget.
      simpl in Hget. injection Hget as <-.
      apply filter_elem_of in Hin as [_ Hkeep].
      apply staff_filter_metadata in Hkeep.
      unfold metadata_field in Hkeep. rewrite Hnone in Hkeep. simpl in Hkeep.
      apply accepted_inv in Hguard as (_ & _ & Htruthy & _).
      rewrite <- Hkeep in Htruthy. discriminate.
    + rewrite (reporting_upstream_error _ _ _ _ Hguard Hlist) in Hget.
      discriminate.
  - destruct (reporting_stopped Date_parse stripe body Hguard)
      as (r & Hrun & Hkey & _).
    rewrite Hrun in Hget. simpl in Hget. congruence.
Qed.

Lemma unattributed_record_is_never_reported_witness :
  intent "pi_8" 400 "eur" "succeeded" [] ∉ [alice_1000].
Proof.
  apply (unattributed_record_is_never_reported parse_sample
           (ledger [intent "pi_8" 400 "eur" "succeeded" []; alice_1000] false)
           alice_request (intent "pi_8" 400 "eur" "succeeded" [])
           [alice_1000]).
  - vm_compute. reflexivity.
  - vm_compute. reflexivity.
Defined.

(** X9: reports add up over pages: for one request, the report of two
    pages laid end to end has the transactions of the first followed by
    those of the second and the sum of the two counts; its total is the sum
    of the two totals whenever the matching amounts of both pages add up
    without rounding (none negative, sum at most 2^53). *)
Theorem report_adds_over_pages
    (Date_parse : string → option Z) (stripe1 stripe2 stripe12 : Stripe)
    (body : gmap string value) (l1 l2 : list PaymentIntent) (m1 m2 m12 : bool) :
  accepted body = true →
  paymentIntents_list stripe1
      (list_params Date_parse (field body "start") (field body "end")) =
    Resolved {| data := l1; has_more := m1 |} →
  paymentIntents_list stripe2
      (list_params Date_parse (field body "start") (field body "end")) =
    Resolved {| data := l2; has_more := m2 |} →
  paymentIntents_list stripe12
      (list_params Date_parse (field body "start") (field body "end")) =
    Resolved {| data := l1 ++ l2; has_more := m12 |} →
  ∃ txs1 txs2,
    payload (fst (transactions_for_terminal Date_parse stripe1 body)) =
      summary txs1
    ∧ payload (fst (transactions_for_terminal Date_parse stripe2 body)) =
        summary txs2
    ∧ get (payload (fst (transactions_for_terminal Date_parse stripe12 body)))
          "transactions" = Some (JIntents (txs1 ++ txs2))
    ∧ get (payload (fst (transactions_for_terminal Date_parse stripe12 body)))
          "count" =
        Some (JValue (JsNumber (Z.of_nat (length txs1)
                                + Z.of_nat (length txs2))))
    ∧ (safe_amounts (txs1 ++ txs2) →
       get (summary txs1) "total" = Some (JValue (JsNumber (exact_sum txs1)))
       ∧ get (summary txs2) "total" = Some (JValue (JsNumber (exact_sum txs2)))
       ∧ get (payload (fst (transactions_for_terminal Date_parse stripe12 body)))
             "total" =
           Some (JValue (JsNumber (exact_sum txs1 + exact_sum txs2)))).
Proof.
  intros Hguard H1 H2 H12.
  rewrite (reporting_resolved _ _ _ _ Hguard H1),
          (reporting_resolved _ _ _ _ Hguard H2),
          (reporting_resolved _ _ _ _ Hguard H12).
  simpl fst. simpl payload. simpl data.
  eexists _, _. split; [reflexivity|]. split; [reflexivity|].
  rewrite List.filter_app.
  rewrite get_summary_transactions, get_summary_count, !get_summary_total.
  rewrite length_app, Nat2Z.inj_add. split; [done|]. split; [done|].
  intros Hsafe. destruct (safe_amounts_app _ _ Hsafe) as [Hs1 Hs2].
  rewrite (reduce_total_exact _ Hs1), (reduce_total_exact _ Hs2),
          (reduce_total_exact _ Hsafe), exact_sum_app.
  done.
Qed.

Lemma report_adds_over_pages_witness :
  get (payload (fst (transactions_for_terminal parse_sample
                       (ledger [alice_500_usd; bob_300; alice_1000] false)
                       alice_request)))
      "total" = Some (JValue (JsNumber (500 + 1000))).
Proof.
  destruct (report_adds_over_pages parse_sample
              (ledger [alice_500_usd; bob_300] true)
              (ledger [alice_1000] false)
              (ledger [alice_500_usd; bob_300; alice_1000] false)
              alice_request [alice_500_usd; bob_300] [alice_1000]
              true false false)
    as (txs1 & txs2 & Hp1 & Hp2 & _ & _ & Htotal).
  - vm_compute. reflexivity.
  - reflexivity.
  - reflexivity.
  - reflexivity.
  - injection Hp1 as _ _ _ Htx1. injection Hp2 as _ _ _ Htx2.
    subst txs1 txs2.
    destruct Htotal as (_ & _ & Hsum); [|exact Hsum].
    split.
    + repeat constructor; vm_compute; discriminate.
    + vm_compute. discriminate.
Defined.

(** ** Creating, updating and capturing *)

(** X10: creation validates nothing: every body, even an empty one, leads
    to exactly one create call; the answer is 200 with the id and client
    secret of the record the processor returns, or 500 with its message,
    and never 400. *)
Theorem create_outcomes (stripe : Stripe) (body : gmap string value) :
  create_payment_intent stripe body =
    (match paymentIntents_create stripe (create_params body) with
     | Resolved pi =>
         res_json [("intent", JValue (JsString (id pi)));
                   ("secret", JValue (JsString (client_secret pi)))]
     | Rejected message =>
         res_status_json 500 [("error", JValue (JsString message))]
     end,
     [PaymentIntentsCreate (create_params body)])
  ∧ code (fst (create_payment_intent stripe body)) ≠ 400%nat.
Proof.
  unfold create_payment_intent, try_catch. cbn.
  unfold mbind, async_bind, await.
  by destruct (paymentIntents_create stripe (create_params body)).
Qed.

(** X11: the caller cannot choose the capture method or the payment method
    types: they are 'automatic' and ['card_present'] for every body, and a
    body field other than amount, currency, description, receipt_email,
    terminal_label and staff_name changes nothing in the create call. *)
Theorem create_reads_six_fields
    (stripe : Stripe) (body : gmap string value) (k : string) (v : value) :
  k ∉ ["amount"; "currency"; "description"; "receipt_email";
       "terminal_label"; "staff_name"] →
  create_payment_intent stripe (<[k := v]> body) =
    create_payment_intent stripe body
  ∧ cp_capture_method (create_params (<[k := v]> body)) = "automatic"
  ∧ cp_payment_method_types (create_params (<[k := v]> body)) =
      ["card_present"].
Proof.
  intros Hk.
  assert (create_params (<[k := v]> body) = create_params body) as Hparams.
  { unfold create_params, field.
    rewrite !lookup_insert_ne; [done|..]; intros ->; apply Hk; set_solver. }
  split; [|done].
  unfold create_payment_intent. by rewrite Hparams.
Qed.

Lemma create_reads_six_fields_witness :
  create_payment_intent accepting
      (<["capture_method" := JsString "manual"]>
         {[ "amount" := JsNumber 200; "currency" := JsString "eur" ]}) =
    create_payment_intent accepting
      {[ "amount" := JsNumber 200; "currency" := JsString "eur" ]}
  ∧ cp_capture_method
      (create_params
         (<["capture_method" := JsString "manual"]>
            {[ "amount" := JsNumber 200; "currency" := JsString "eur" ]}))
    = "automatic"
  ∧ cp_payment_method_types
      (create_params
         (<["capture_method" := JsString "manual"]>
            {[ "amount" := JsNumber 200; "currency" := JsString "eur" ]}))
    = ["card_present"].
Proof.
  apply (create_reads_six_fields accepting
           {[ "amount" := JsNumber 200; "currency" := JsString "eur" ]}
           "capture_method" (JsString "manual")).
  vm_compute. intros Hin.
  repeat (apply elem_of_cons in Hin as [Hin|Hin]; [discriminate Hin|]).
  by apply elem_of_nil in Hin.
Defined.

(** X12: the operator name written at creation is the key of the report:
    a record created with a non-empty staff_name, kept by the ledger and
    succeeded, passes the filter of a report for a name exactly when the
    two names are the same string. *)
Theorem created_record_reported_to_its_operator
    (body : gmap string value) (s t : string) (pi : PaymentIntent) :
  field body "staff_name" = JsString s →
  s ≠ "" →
  kept_by_ledger (create_params body) pi →
  status pi = "succeeded" →
  staff_filter (JsString t) pi = true ↔ s = t.
Proof.
  intros Hstaff Hs Hkept Hstatus.
  assert (metadata pi !! "staff_name" = Some s) as Hmeta.
  { apply Hkept. rewrite create_metadata_staff_name, Hstaff.
    unfold js_or. simpl. by destruct (String.eqb_spec s ""). }
  unfold staff_filter, metadata_field. rewrite Hstatus, Hmeta. simpl.
  apply String.eqb_eq.
Qed.

Lemma created_record_reported_to_its_operator_witness :
  staff_filter (JsString "Alice") alice_1000 = true ↔ "Alice" = "Alice".
Proof.
  apply (created_record_reported_to_its_operator
           {[ "amount" := JsNumber 1000; "currency" := JsString "eur";
              "terminal_label" := JsString "Register-2";
              "staff_name" := JsString "Alice" ]}
           "Alice" "Alice" alice_1000).
  - vm_compute. reflexivity.
  - discriminate.
  - intros k s. simpl.
    destruct (decide (k = "terminal_label")) as [->|Hlabel].
    + rewrite lookup_insert_eq. vm_compute. intros [= <-]. reflexivity.
    + rewrite lookup_insert_ne by done.
      destruct (decide (k = "staff_name")) as [->|Hname].
      * rewrite lookup_singleton_eq. vm_compute. intros [= <-]. reflexivity.
      * rewrite lookup_singleton_ne by done. discriminate.
  - reflexivity.
Defined.

(** X13: the update call is issued exactly when both payment_intent_id and
    receipt_email are truthy; it then carries these two values and nothing
    else, and the answer is 200 with the updated record or 500 with the
    processor's message. *)
Theorem update_outcomes (stripe : Stripe) (body : gmap string value) :
  (snd (update_payment_intent stripe body) = []
     ↔ truthy (field body "payment_intent_id") = false
       ∨ truthy (field body "receipt_email") = false)
  ∧ (truthy (field body "payment_intent_id") = true →
     truthy (field body "receipt_email") = true →
     update_payment_intent stripe body =
       (match paymentIntents_update stripe (field body "payment_intent_id")
                                    (field body "receipt_email") with
        | Resolved pi =>
            res_json [("success", JValue (JsBool true));
                      ("paymentIntent", JIntent pi)]
        | Rejected message =>
            res_status_json 500 [("error", JValue (JsString message))]
        end,
        [PaymentIntentsUpdate (field body "payment_intent_id")
                              (field body "receipt_email")])).
Proof.
  split.
  - split.
    + intros Hnone.
      destruct (truthy (field body "payment_intent_id")) eqn:Hid; [|by left].
      destruct (truthy (field body "receipt_email")) eqn:Hemail; [|by right].
      rewrite (update_forwarded _ _ Hid Hemail) in Hnone. discriminate.
    + intros Hfalsy. by rewrite (update_rejected_early _ _ Hfalsy).
  - intros Hid Hemail. unfold update_payment_intent, try_catch.
    rewrite Hid, Hemail. cbn. unfold mbind, async_bind, await.
    by destruct (paymentIntents_update stripe _ _).
Qed.

(** X14: an update touches the receipt address only: whatever else the
    body holds (an amount, a staff_name, metadata), the handler behaves as
    without it. *)
Theorem update_reads_two_fields
    (stripe : Stripe) (body : gmap string value) (k : string) (v : value) :
  k ≠ "payment_intent_id" → k ≠ "receipt_email" →
  update_payment_intent stripe (<[k := v]> body) =
    update_payment_intent stripe body.
Proof.
  intros Hid Hemail. unfold update_payment_intent, field.
  by rewrite !lookup_insert_ne.
Qed.

Lemma update_reads_two_fields_witness :
  update_payment_intent accepting
      (<["staff_name" := JsString "Mallory"]>
         {[ "payment_intent_id" := JsString "pi_1";
            "receipt_email" := JsString "a@example.org" ]}) =
    update_payment_intent accepting
      {[ "payment_intent_id" := JsString "pi_1";
         "receipt_email" := JsString "a@example.org" ]}.
Proof.
  apply (update_reads_two_fields accepting
           {[ "payment_intent_id" := JsString "pi_1";
              "receipt_email" := JsString "a@example.org" ]}
           "staff_name" (JsString "Mallory")).
  - discriminate.
  - discriminate.
Defined.

Lemma capture_runs client body :
  capture_payment_intent client body =
    let params :=
      if truthy (field body "amount_to_capture")
      then [("amount_to_capture", field body "amount_to_capture")] else [] in
    (match paymentIntents_capture client (field body "payment_intent_id")
                                  params with
     | Resolved pi =>
         res_json [("intent", JValue (JsString (id pi)));
                   ("secret", JValue (JsString (client_secret pi)))]
     | Rejected message => internal_error message
     end,
     [PaymentIntentsCapture (field body "payment_intent_id") params]).
Proof.
  unfold capture_payment_intent, guarded. cbn.
  unfold mbind, task_bind, call.
  by destruct (paymentIntents_capture client _ _).
Qed.

(** X15: an amount_to_capture that is falsy (0, the empty string, null) is
    the same as none: the capture call carries empty parameters, so the full
    authorised amount is captured. *)
Theorem falsy_capture_amount_is_dropped
    (client : Client) (body : gmap string value) :
  truthy (field body "amount_to_capture") = false →
  capture_payment_intent client body =
    capture_payment_intent client (delete "amount_to_capture" body)
  ∧ snd (capture_payment_intent client body) =
      [PaymentIntentsCapture (field body "payment_intent_id") []].
Proof.
  intros Hfalsy.
  assert (field (delete "amount_to_capture" body) "amount_to_capture"
          = JsUndefined) as Hgone.
  { unfold field. by rewrite lookup_delete_eq. }
  assert (field (delete "amount_to_capture" body) "payment_intent_id"
          = field body "payment_intent_id") as Hid.
  { unfold field. by rewrite lookup_delete_ne. }
  rewrite !capture_runs. cbn zeta. rewrite Hgone, Hid, Hfalsy. done.
Qed.

Lemma falsy_capture_amount_is_dropped_witness :
  capture_payment_intent (client_of accepting alice_1000)
      {[ "payment_intent_id" := JsString "pi_1";
         "amount_to_capture" := JsNumber 0 ]} =
    capture_payment_intent (client_of accepting alice_1000)
      (delete "amount_to_capture"
         {[ "payment_intent_id" := JsString "pi_1";
            "amount_to_capture" := JsNumber 0 ]})
  ∧ snd (capture_payment_intent (client_of accepting alice_1000)
           {[ "payment_intent_id" := JsString "pi_1";
              "amount_to_capture" := JsNumber 0 ]}) =
      [PaymentIntentsCapture
         (field {[ "payment_intent_id" := JsString "pi_1";
                   "amount_to_capture" := JsNumber 0 ]} "payment_intent_id")
         []].
Proof.
  apply (falsy_capture_amount_is_dropped (client_of accepting alice_1000)
           {[ "payment_intent_id" := JsString "pi_1";
              "amount_to_capture" := JsNumber 0 ]}).
  vm_compute. reflexivity.
Defined.

(** X16: capture validates nothing, unlike update: whatever the body, one
    capture call is issued with the payment_intent_id as received, even
    when it is missing, and the answer is 200 or 500, never 400. *)
Theorem capture_outcomes (client : Client) (body : gmap string value) :
  (∃ params,
     snd (capture_payment_intent client body) =
       [PaymentIntentsCapture (field body "payment_intent_id") params])
  ∧ (code (fst (capture_payment_intent client body)) = 200%nat
     ∨ code (fst (capture_payment_intent client body)) = 500%nat).
Proof.
  rewrite capture_runs. cbn zeta. split; [by eexists|]. simpl.
  destruct (paymentIntents_capture client _ _); [by left|by right].
Qed.

(** ** The gate and the routes *)

Lemma API_KEY_is_string env :
  ∃ k, k ≠ "" ∧ API_KEY env = JsString k.
Proof.
  unfold API_KEY, js_or.
  destruct (env !! "API_KEY") as [k|]; simpl.
  - destruct (String.eqb_spec k "") as [->|Hk]; simpl.
    + by exists "supersecretkey".
    + by exists k.
  - by exists "supersecretkey".
Qed.

Lemma authenticate_refuses {C} env headers (next : Response * list C) k :
  API_KEY env = JsString k →
  headers !! "x-api-key" ≠ Some k →
  authenticate env headers next =
    (res_status_json 401 [("error", JValue (JsString "Unauthorized"))], []).
Proof.
  intros Hkey Hheader. unfold authenticate, header. rewrite Hkey.
  destruct (headers !! "x-api-key") as [h|]; simpl; [|done].
  destruct (String.eqb_spec h k) as [->|Hne]; [done|done].
Qed.

Lemma authenticate_passes {C} env headers (next : Response * list C) k :
  API_KEY env = JsString k →
  headers !! "x-api-key" = Some k →
  authenticate env headers next = next.
Proof.
  intros Hkey Hheader. unfold authenticate, header. rewrite Hkey, Hheader.
  simpl. by rewrite String.eqb_refl.
Qed.

(** X17: a request without the x-api-key header, or with an empty one, is
    refused on every POST route with status 401, whatever the environment
    holds, and nothing is sent to the processor. *)
Theorem request_without_key_is_refused
    (env : gmap string string) (Date_parse : string → option Z)
    (client : Client) (route : Route) (headers : gmap string string)
    (body : gmap string value) :
  route ≠ GetRoot →
  headers !! "x-api-key" = None ∨ headers !! "x-api-key" = Some "" →
  serve env Date_parse client route headers body =
    (JsonReply
       (res_status_json 401 [("error", JValue (JsString "Unauthorized"))]),
     []).
Proof.
  intros Hroute Hheader.
  destruct (API_KEY_is_string env) as (k & Hk & Hkey).
  assert (headers !! "x-api-key" ≠ Some k) as Hne.
  { destruct Hheader as [-> | ->]; congruence. }
  unfold serve, gated.
  destruct route; simpl; try done;
    by rewrite (authenticate_refuses _ _ _ _ Hkey Hne).
Qed.

Lemma request_without_key_is_refused_witness :
  serve {[ "API_KEY" := "" ]} parse_sample (client_of accepting alice_1000)
        PostCreatePaymentIntent ∅
        {[ "amount" := JsNumber 200; "currency" := JsString "eur" ]} =
    (JsonReply
       (res_status_json 401 [("error", JValue (JsString "Unauthorized"))]),
     []).
Proof.
  apply (request_without_key_is_refused {[ "API_KEY" := "" ]} parse_sample
           (client_of accepting alice_1000) PostCreatePaymentIntent ∅
           {[ "amount" := JsNumber 200; "currency" := JsString "eur" ]}).
  - discriminate.
  - left. vm_compute. reflexivity.
Defined.

(** X18: on a POST route the key decides alone: with the configured key the
    reply is that of the route's handler, calls included; with any other
    key it is 401 and the handler's calls are not issued. *)
Theorem gate_decides_by_key
    (env : gmap string string) (Date_parse : string → option Z)
    (client : Client) (route : Route) (headers : gmap string string)
    (body : gmap string value) (k : string)
    (next : Response * list ClientCall) :
  API_KEY env = JsString k →
  route_handler Date_parse client route body = Some next →
  serve env Date_parse client route headers body =
    if decide (headers !! "x-api-key" = Some k)
    then (JsonReply (fst next), snd next)
    else (JsonReply
            (res_status_json 401 [("error", JValue (JsString "Unauthorized"))]),
          []).
Proof.
  intros Hkey Hnext. unfold serve, gated. rewrite Hnext.
  destruct (decide (headers !! "x-api-key" = Some k)) as [Hyes|Hno].
  - by rewrite (authenticate_passes _ _ _ _ Hkey Hyes).
  - by rewrite (authenticate_refuses _ _ _ _ Hkey Hno).
Qed.

Lemma gate_decides_by_key_witness :
  serve {[ "API_KEY" := "k-123" ]} parse_sample
        (client_of (ledger [alice_1000] false) alice_1000)
        PostTransactionsForTerminal {[ "x-api-key" := "k-123" ]}
        alice_request =
    (JsonReply (res_json (summary [alice_1000])),
     [OnPaymentIntents
        (PaymentIntentsList
           {| created_gte := Some 1704067200; created_lte := Some 1704153600;
              limit := 500 |})]).
Proof.
  pose proof (gate_decides_by_key {[ "API_KEY" := "k-123" ]} parse_sample
                (client_of (ledger [alice_1000] false) alice_1000)
                PostTransactionsForTerminal {[ "x-api-key" := "k-123" ]}
                alice_request "k-123"
                (on_paymentIntents
                   (transactions_for_terminal parse_sample
                      (ledger [alice_1000] false) alice_request)))
    as Hserve.
  rewrite Hserve.
  - vm_compute. reflexivity.
  - vm_compute. reflexivity.
  - reflexivity.
Defined.

(** X19: when API_KEY is not set, or set to the empty string, the key is
    the built-in 'supersecretkey': a request carrying it passes the gate on
    every POST route. *)
Theorem default_key_opens_the_gate
    (env : gmap string string) (Date_parse : string → option Z)
    (client : Client) (route : Route) (headers : gmap string string)
    (body : gmap string value) (next : Response * list ClientCall) :
  env !! "API_KEY" = None ∨ env !! "API_KEY" = Some "" →
  headers !! "x-api-key" = Some "supersecretkey" →
  route_handler Date_parse client route body = Some next →
  serve env Date_parse client route headers body =
    (JsonReply (fst next), snd next).
Proof.
  intros Henv Hheader Hnext. unfold serve, gated. rewrite Hnext.
  rewrite (authenticate_passes _ _ _ "supersecretkey"); [done| |done].
  unfold API_KEY. by destruct Henv as [-> | ->].
Qed.

Lemma default_key_opens_the_gate_witness :
  serve ∅ parse_sample (client_of accepting alice_1000)
        PostConnectionToken {[ "x-api-key" := "supersecretkey" ]} ∅ =
    (JsonReply (fst (connection_token (client_of accepting alice_1000))),
     snd (connection_token (client_of accepting alice_1000))).
Proof.
  apply (default_key_opens_the_gate ∅ parse_sample
           (client_of accepting alice_1000) PostConnectionToken
           {[ "x-api-key" := "supersecretkey" ]} ∅
           (connection_token (client_of accepting alice_1000))).
  - left. vm_compute. reflexivity.
  - vm_compute. reflexivity.
  - reflexivity.
Defined.

Lemma connection_token_runs client :
  connection_token client =
    (match terminal_connectionTokens_create client with
     | Resolved token => res_json token
     | Rejected message => internal_error message
     end, [ConnectionTokensCreate]).
Proof.
  unfold connection_token, guarded. cbn. unfold mbind, task_bind, call.
  by destruct (terminal_connectionTokens_create client).
Qed.

Lemma update_calls stripe body :
  (length (snd (update_payment_intent stripe body)) ≤ 1)%nat
  ∧ (code (fst (update_payment_intent stripe body)) = 200%nat
     ∨ code (fst (update_payment_intent stripe body)) = 400%nat
     ∨ code (fst (update_payment_intent stripe body)) = 500%nat).
Proof.
  unfold update_payment_intent, try_catch.
  destruct (truthy (field body "payment_intent_id")),
           (truthy (field body "receipt_email")); cbn; auto.
  unfold mbind, async_bind, await.
  destruct (paymentIntents_update stripe _ _); cbn; auto.
Qed.

Lemma create_codes stripe body :
  code (fst (create_payment_intent stripe body)) = 200%nat
  ∨ code (fst (create_payment_intent stripe body)) = 500%nat.
Proof.
  unfold create_payment_intent, try_catch. cbn.
  unfold mbind, async_bind, await.
  destruct (paymentIntents_create stripe _); cbn; auto.
Qed.

(** What every registered handler has in common. *)
Lemma route_handler_shape Date_parse client route body next :
  route_handler Date_parse client route body = Some next →
  (length (snd next) ≤ 1)%nat
  ∧ (code (fst next) = 200%nat ∨ code (fst next) = 500%nat
     ∨ (code (fst next) = 400%nat
        ∧ (route = PostUpdatePaymentIntent
           ∨ route = PostTransactionsForTerminal))).
Proof.
  destruct route; simpl; intros [= <-].
  - rewrite connection_token_runs. simpl. split; [lia|].
    destruct (terminal_connectionTokens_create client); auto.
  - unfold on_paymentIntents. simpl. rewrite create_calls. simpl.
    split; [lia|]. destruct (create_codes (paymentIntents client) body); auto.
  - rewrite capture_runs. cbn zeta. simpl. split; [lia|].
    destruct (paymentIntents_capture client _ _); auto.
  - unfold on_paymentIntents. simpl. rewrite length_fmap.
    destruct (update_calls (paymentIntents client) body) as [Hlen Hcode].
    split; [done|]. destruct Hcode as [?|[?|?]]; auto.
  - unfold on_paymentIntents. simpl. rewrite length_fmap, reporting_calls.
    destruct (reporting_answer Date_parse (paymentIntents client) body)
      as (H400 & _ & Hrun & H500).
    destruct (accepted body) eqn:Hguard.
    + split; [simpl; lia|]. destruct (Hrun eq_refl) as [_ [?|?]]; auto.
    + split; [simpl; lia|].
      destruct (required body) eqn:Hreq.
      * right. left. by apply H500.
      * right. right. split; [|by right]. by apply H400.
Qed.

(** X20: no request makes the server call the processor more than once,
    on any route, with or without the key. *)
Theorem at_most_one_call_per_request
    (env : gmap string string) (Date_parse : string → option Z)
    (client : Client) (route : Route) (headers : gmap string string)
    (body : gmap string value) :
  (length (snd (serve env Date_parse client route headers body)) ≤ 1)%nat.
Proof.
  unfold serve, gated.
  destruct (route_handler Date_parse client route body) as [next|] eqn:Hnext;
    [|simpl; lia].
  apply route_handler_shape in Hnext as [Hlen _].
  unfold authenticate.
  destruct (negb (strict_eq (header headers "x-api-key") (API_KEY env)));
    simpl; [lia|done].
Qed.

(** X21: the health check answers its fixed text; every other reply is
    JSON with status 200, 400, 401 or 500, and 400 is given only by the
    update and report routes. *)
Theorem reply_statuses
    (env : gmap string string) (Date_parse : string → option Z)
    (client : Client) (route : Route) (headers : gmap string string)
    (body : gmap string value) :
  match fst (serve env Date_parse client route headers body) with
  | TextReply text =>
      route = GetRoot ∧ text = "Stripe Terminal backend running."
  | JsonReply r =>
      route ≠ GetRoot
      ∧ (code r = 200%nat ∨ code r = 401%nat ∨ code r = 500%nat
         ∨ (code r = 400%nat
            ∧ (route = PostUpdatePaymentIntent
               ∨ route = PostTransactionsForTerminal)))
  end.
Proof.
  unfold serve, gated.
  destruct (route_handler Date_parse client route body) as [next|] eqn:Hnext.
  - assert (route ≠ GetRoot) as Hroute by (by destruct route).
    apply route_handler_shape in Hnext as [_ Hcode].
    unfold authenticate.
    destruct (negb (strict_eq (header headers "x-api-key") (API_KEY env)));
      simpl; (split; [done|]); [auto|].
    destruct Hcode as [?|[?|?]]; auto.
  - simpl. by destruct route.
Qed.

(** ** Other revisions *)

Lemma strict_eq_metadata_refl pi k :
  strict_eq (metadata_field pi k) (metadata_field pi k) = true.
Proof.
  unfold metadata_field. destruct (metadata pi !! k); simpl; [|done].
  apply String.eqb_refl.
Qed.

(** X22: in the revision that reports by terminal_label, the value of
    terminal_id is never compared with anything: when a terminal_label is
    given it plays no part at all, and otherwise only its presence counts. *)
Theorem terminal_id_is_never_compared
    (Date_parse : string → option Z) (stripe : Stripe)
    (body : gmap string value) (v : value) :
  truthy (field body "terminal_label") = true
  ∨ truthy v = truthy (field body "terminal_id") →
  Rev_terminal_label.transactions_for_terminal Date_parse stripe
      (<["terminal_id" := v]> body) =
    Rev_terminal_label.transactions_for_terminal Date_parse stripe body.
Proof.
  intros Hsame. unfold Rev_terminal_label.transactions_for_terminal, field.
  rewrite lookup_insert_eq, !lookup_insert_ne by done. simpl.
  destruct Hsame as [Hlabel|Hid].
  - unfold field in Hlabel. rewrite Hlabel. simpl. by rewrite !andb_false_r.
  - unfold field in Hid. by rewrite Hid.
Qed.

Lemma terminal_id_is_never_compared_witness :
  Rev_terminal_label.transactions_for_terminal parse_sample
      (ledger [alice_1000; bob_300] false)
      (<["terminal_id" := JsString "tmr_B"]>
         (<["terminal_id" := JsString "tmr_A"]> window)) =
    Rev_terminal_label.transactions_for_terminal parse_sample
      (ledger [alice_1000; bob_300] false)
      (<["terminal_id" := JsString "tmr_A"]> window).
Proof.
  apply (terminal_id_is_never_compared parse_sample
           (ledger [alice_1000; bob_300] false)
           (<["terminal_id" := JsString "tmr_A"]> window)
           (JsString "tmr_B")).
  right. vm_compute. reflexivity.
Defined.

(** X23: in that revision a request with a terminal_label, whose start,
    end and label can be converted to strings (the handler writes them into
    its log lines), is answered with exactly the records of the page that
    are succeeded and carry that label. *)
Theorem label_report_membership
    (Date_parse : string → option Z) (stripe : Stripe)
    (body : gmap string value) (page : Page) :
  truthy (field body "start") = true →
  truthy (field body "end") = true →
  truthy (field body "terminal_label") = true →
  converts (field body "start") = true →
  converts (field body "end") = true →
  converts (field body "terminal_label") = true →
  paymentIntents_list stripe
      (list_params Date_parse (field body "start") (field body "end")) =
    Resolved page →
  ∃ txs,
    get (payload (fst (Rev_terminal_label.transactions_for_terminal
                         Date_parse stripe body)))
        "transactions" = Some (JIntents txs)
    ∧ ∀ pi, pi ∈ txs ↔
            pi ∈ data page ∧ status pi = "succeeded"
            ∧ metadata_field pi "terminal_label" = field body "terminal_label".
Proof.
  intros Hstart Hend Hlabel Hcs Hce Hcl Hlist.
  rewrite (label_revision_runs _ _ _ Hcs Hce).
  rewrite Hstart, Hend, Hlabel, andb_false_r, Hlist. simpl.
  rewrite (template_converts _ Hcl). simpl.
  eexists. split; [reflexivity|].
  intros pi. rewrite filter_elem_of.
  unfold Rev_terminal_label.label_filter. rewrite Hlabel.
  split.
  - intros (Hin & [Hstatus Heq]%andb_prop).
    split; [done|]. split; [by apply String.eqb_eq|].
    by apply strict_eq_metadata.
  - intros (Hin & Hstatus & Heq). split; [done|].
    rewrite Hstatus, <- Heq. simpl. apply strict_eq_metadata_refl.
Qed.

Lemma label_report_membership_witness :
  ∃ txs,
    get (payload (fst (Rev_terminal_label.transactions_for_terminal
                         parse_sample
                         (ledger [alice_1000; bob_300; alice_pending] false)
                         (<["terminal_label" := JsString "Register-1"]> window))))
        "transactions" = Some (JIntents txs)
    ∧ ∀ pi, pi ∈ txs ↔
            pi ∈ [alice_1000; bob_300; alice_pending]
            ∧ status pi = "succeeded"
            ∧ metadata_field pi "terminal_label"
              = field (<["terminal_label" := JsString "Register-1"]> window)
                      "terminal_label".
Proof.
  apply (label_report_membership parse_sample
           (ledger [alice_1000; bob_300; alice_pending] false)
           (<["terminal_label" := JsString "Register-1"]> window)
           {| data := [alice_1000; bob_300; alice_pending];
              has_more := false |}).
  - vm_compute. reflexivity.
  - vm_compute. reflexivity.
  - vm_compute. reflexivity.
  - vm_compute. reflexivity.
  - vm_compute. reflexivity.
  - vm_compute. reflexivity.
  - reflexivity.
Defined.

(** X24: the create handler of that revision takes the operator from
    staffName. A body that names the operator under staff_name only is
    recorded as 'Unknown', so the record, once succeeded, passes the
    operator filter of the present report for 'Unknown' and for no other
    name. *)
Theorem snake_case_operator_was_unknown
    (stripe : Stripe) (body : gmap string value) (pi : PaymentIntent)
    (t : string) :
  truthy (field body "staffName") = false →
  kept_by_ledger (Rev_terminal_label_create.create_params body) pi →
  status pi = "succeeded" →
  snd (Rev_terminal_label_create.create_payment_intent stripe body) =
    [PaymentIntentsCreate (Rev_terminal_label_create.create_params body)]
  ∧ (staff_filter (JsString t) pi = true ↔ t = "Unknown").
Proof.
  intros Hcamel Hkept Hstatus. split.
  - unfold Rev_terminal_label_create.create_payment_intent, try_catch. cbn.
    unfold mbind, async_bind, await.
    by destruct (paymentIntents_create stripe _).
  - assert (metadata pi !! "staff_name" = Some "Unknown") as Hmeta.
    { apply Hkept. simpl.
      rewrite lookup_insert_ne, lookup_singleton_eq by done.
      unfold js_or. by rewrite Hcamel. }
    unfold staff_filter, metadata_field. rewrite Hstatus, Hmeta.
    change (String.eqb "Unknown" t = true ↔ t = "Unknown").
    rewrite String.eqb_eq. split; congruence.
Qed.

Lemma snake_case_operator_was_unknown_witness :
  snd (Rev_terminal_label_create.create_payment_intent accepting
         {[ "amount" := JsNumber 200; "currency" := JsString "eur";
            "staff_name" := JsString "Alice" ]}) =
    [PaymentIntentsCreate
       (Rev_terminal_label_create.create_params
          {[ "amount" := JsNumber 200; "currency" := JsString "eur";
             "staff_name" := JsString "Alice" ]})]
  ∧ (staff_filter (JsString "Alice") unattributed_200 = true
     ↔ "Alice" = "Unknown").
Proof.
  apply (snake_case_operator_was_unknown accepting
           {[ "amount" := JsNumber 200; "currency" := JsString "eur";
              "staff_name" := JsString "Alice" ]}
           unattributed_200 "Alice").
  - vm_compute. reflexivity.
  - intros k s. simpl.
    destruct (decide (k = "terminal_label")) as [->|Hlabel].
    + rewrite lookup_insert_eq. vm_compute. intros [= <-]. reflexivity.
    + rewrite lookup_insert_ne by done.
      destruct (decide (k = "staff_name")) as [->|Hname].
      * rewrite lookup_singleton_eq. vm_compute. intros [= <-]. reflexivity.
      * rewrite lookup_singleton_ne by done. discriminate.
  - reflexivity.
Defined.

(** X25: the daily total adds the succeeded records only, but labels the
    sum with the currency of the first record of the page, succeeded or
    not; one list call is issued, from local midnight in whole seconds and
    limited to 100 records. The total is the exact sum where the succeeded
    amounts add up without rounding (none negative, sum at most 2^53). *)
Theorem today_currency_is_of_first_record
    (midnight : Z)
    (paymentIntents_list_since :
       Rev_transactions_today.SinceParams → Settled Page)
    (page : Page) (pi : PaymentIntent) (rest : list PaymentIntent) :
  paymentIntents_list_since
      {| Rev_transactions_today.since_limit := 100;
         Rev_transactions_today.since_gte := midnight / 1000 |} =
    Resolved page →
  data page = pi :: rest →
  currency pi ≠ "" →
  safe_amounts (List.filter (λ r, String.eqb (status r) "succeeded")
                            (pi :: rest)) →
  Rev_transactions_today.transactions_today midnight paymentIntents_list_since =
    (res_json
       [("total",
         JValue (JsNumber
           (exact_sum (List.filter (λ r, String.eqb (status r) "succeeded")
                                   (pi :: rest)))));
        ("currency", JValue (JsString (currency pi)))],
     [Rev_transactions_today.PaymentIntentsListSince
        {| Rev_transactions_today.since_limit := 100;
           Rev_transactions_today.since_gte := midnight / 1000 |}]).
Proof.
  intros Hlist Hdata Hcur Hsafe.
  unfold Rev_transactions_today.transactions_today, guarded. cbn.
  unfold mbind, task_bind, call. rewrite Hlist. cbn. rewrite Hdata.
  rewrite (reduce_total_exact _ Hsafe). unfold js_or. simpl.
  by destruct (String.eqb_spec (currency pi) "").
Qed.

Lemma today_currency_is_of_first_record_witness :
  Rev_transactions_today.transactions_today 1704067200000
      (λ _, Resolved {| data := [eve_failed_usd; alice_1000];
                        has_more := false |}) =
    (res_json [("total", JValue (JsNumber 1000));
               ("currency", JValue (JsString "usd"))],
     [Rev_transactions_today.PaymentIntentsListSince
        {| Rev_transactions_today.since_limit := 100;
           Rev_transactions_today.since_gte := 1704067200 |}]).
Proof.
  apply (today_currency_is_of_first_record 1704067200000
           (λ _, Resolved {| data := [eve_failed_usd; alice_1000];
                             has_more := false |})
           {| data := [eve_failed_usd; alice_1000]; has_more := false |}
           eve_failed_usd [alice_1000]).
  - reflexivity.
  - reflexivity.
  - discriminate.
  - split.
    + repeat constructor; vm_compute; discriminate.
    + vm_compute. discriminate.
Defined.
